(** * Authentication session broker of the plugin host

    Shallow embedding of [AuthenticationExtImpl]
    (packages/plugin-ext/src/plugin/authentication-ext.ts) and the
    properties of its provider registry, of the remote provider-directory
    merge and of [getSession] / [logout].

    Conventions of the model.
    - A JavaScript string is a [string]; a character stands for one code
      unit, so the model covers strings of code units below 256, on which
      the lexicographic order of [String.compare] is the order used by
      [Array.prototype.sort] without a comparator.
    - A JavaScript array is a [list]; an operation that mutates an array in
      place returns the new contents.
    - The [Map] of providers is a [gmap]: only [get], [set] and [delete]
      are used on it.
    - An object that is compared with [===] or [indexOf] carries its
      reference; two objects are the same object iff the references agree.
    - Every awaited call to a collaborator (the main-side proxy, a
      provider) is a node of a finite interaction tree.  The environment
      settles the call: it fulfils it with a reply or rejects it with an
      error, and a rejected call rejects the method that awaits it, since
      no method of the class catches ([run_settling]).  [run] is the case
      of an environment that fulfils every call.  A synchronous, not
      awaited call is appended to the log kept in the object state. *)

From Stdlib Require Import ZArith Ascii.
From stdpp Require Import gmap strings list sorting.

Local Open Scope Z_scope.

(** ** JavaScript primitives *)

Module JS.

(** [||] and [!!] on an optional value: [undefined] and the empty string
    are falsy. *)
Definition or_else (a : option string) (b : string) : string :=
  match a with
  | Some s => if String.eqb s "" then b else s
  | None => b
  end.

Definition truthy (b : option bool) : bool :=
  match b with
  | Some v => v
  | None => false
  end.

(** [String.prototype.toLowerCase] on code units below 256. *)
Definition lower_code (n : N) : N :=
  if ((65 <=? n) && (n <=? 90))%N then (n + 32)%N
  else if ((192 <=? n) && (n <=? 222) && negb (n =? 215))%N then (n + 32)%N
  else n.

Fixpoint toLowerCase (s : string) : string :=
  match s with
  | EmptyString => EmptyString
  | String c s' => String (ascii_of_N (lower_code (N_of_ascii c))) (toLowerCase s')
  end.

(** [Array.prototype.join]. *)
Fixpoint join (sep : string) (l : list string) : string :=
  match l with
  | [] => ""
  | [x] => x
  | x :: l' => x +:+ sep +:+ join sep l'
  end.

(** [Array.prototype.sort] without a comparator, on an array of strings:
    the result is the ordering of the contents by code units. *)
Definition sort (l : list string) : list string := merge_sort String.le l.

(** [Array.prototype.findIndex]: the first index whose element satisfies
    the predicate, [-1] when there is none. *)
Fixpoint findIndex_from {A} (f : A -> bool) (l : list A) (i : Z) : Z :=
  match l with
  | [] => -1
  | x :: l' => if f x then i else findIndex_from f l' (i + 1)
  end.

Definition findIndex {A} (f : A -> bool) (l : list A) : Z := findIndex_from f l 0.

(** [Array.prototype.find]. *)
Definition find {A} (f : A -> bool) (l : list A) : option A := List.find f l.

(** Strict equality [===], as used by [indexOf]. *)
Class StrictEq (A : Type) := strict_eq : A -> A -> bool.

#[global] Instance string_strict_eq : StrictEq string := String.eqb.

Definition indexOf {A} `{StrictEq A} (x : A) (l : list A) : Z :=
  findIndex (fun y => strict_eq y x) l.

(** [Array.prototype.push] of one element. *)
Definition push {A} (l : list A) (x : A) : list A := l ++ [x].

(** [Array.prototype.splice] called with the single argument [start]:
    every element from [start] to the end of the array is removed.  A
    negative [start] counts from the end. *)
Definition splice {A} (l : list A) (start : Z) : list A :=
  let len := Z.of_nat (length l) in
  let from := if start <? 0 then Z.max (len + start) 0 else Z.min start len in
  take (Z.to_nat from) l.

End JS.

(** ** Data model *)

Record Account := { account_id : string; account_label : string }.

Record AuthenticationSession := {
  session_id : string;
  accessToken : string;
  account : Account;
  session_scopes : list string
}.

Record AuthenticationProvider := {
  provider_id : string;
  provider_label : string;
  supportsMultipleAccounts : bool
}.

(** Identity of an information object: [Own n] is the [n]-th object literal
    built by [registerAuthenticationProvider], [Ext n] an object handed in
    by a caller (the RPC layer builds fresh ones for each broadcast). *)
Inductive Ref := Own (n : nat) | Ext (n : nat).

#[global] Instance Ref_eq_dec : EqDecision Ref.
Proof. solve_decision. Defined.

Record AuthenticationProviderInformation := {
  info_ref : Ref;
  info_id : string;
  info_label : string
}.

#[global] Instance info_strict_eq : JS.StrictEq AuthenticationProviderInformation :=
  fun a b => bool_decide (info_ref a = info_ref b).

Record PluginModel := {
  model_id : string;
  model_name : string;
  model_displayName : option string
}.

Record InternalPlugin := { model : PluginModel }.

Record AuthenticationGetSessionOptions := {
  createIfNone : option bool;
  clearSessionPreference : option bool
}.

(** [new Error(message)], and the messages of the file. *)
Inductive Error := MkError (message : string).

Definition ProviderNotFoundError (providerId : string) : Error :=
  MkError ("An authentication provider with id '" +:+ providerId +:+ "' was not found.").

Definition ConsentDeniedError : Error := MkError "User did not consent to login.".

Definition DuplicateProviderError (providerId : string) : Error :=
  MkError ("An authentication provider with id '" +:+ providerId +:+ "' is already registered.").

Definition UnknownHandleError (providerId : string) : Error :=
  MkError ("Unable to find authentication provider with handle: " +:+ providerId).

Record AuthenticationSessionsChangeEvent := {
  event_added : list string;
  event_removed : list string;
  event_changed : list string
}.

(** ** Calls to collaborators

    [proxy_x] is the call [this.proxy.$x(...)] to the main side,
    [provider_x] a call of a method of a provider object, [listener_dispose]
    the disposal of the subscription obtained from
    [provider.onDidChangeSessions], [fire_x] the firing of an emitter. *)
Inductive Call :=
| proxy_getProviderIds
| proxy_getSessionsPrompt (providerId accountLabel providerLabel extensionId extensionName : string)
| proxy_selectSession (providerId providerLabel extensionId extensionName : string)
    (sessions : list AuthenticationSession) (scopes : list string) (clearSessionPreference : bool)
| proxy_loginPrompt (providerLabel extensionName : string)
| proxy_setTrustedExtensionAndAccountPreference
    (providerId accountLabel extensionId extensionName sessionId : string)
| proxy_requestNewSession (providerId : string) (scopes : list string) (extensionId extensionName : string)
| proxy_logout (providerId sessionId : string)
| proxy_registerAuthenticationProvider (providerId label : string) (multipleAccounts : bool)
| proxy_unregisterAuthenticationProvider (providerId : string)
| proxy_updateSessions (providerId : string) (e : AuthenticationSessionsChangeEvent)
| provider_getSessions (p : AuthenticationProvider)
| provider_login (p : AuthenticationProvider) (scopes : list string)
| provider_logout (p : AuthenticationProvider) (sessionId : string)
| provider_onDidChangeSessions (p : AuthenticationProvider)
| listener_dispose (p : AuthenticationProvider)
| fire_onDidChangeSessions (providerId label : string) (e : AuthenticationSessionsChangeEvent)
| fire_onDidChangeAuthenticationProviders (added removed : list AuthenticationProviderInformation).

(** The type of the value a call resolves to. *)
Definition Reply (c : Call) : Type :=
  match c with
  | proxy_getProviderIds => list string
  | proxy_getSessionsPrompt _ _ _ _ _ => bool
  | proxy_selectSession _ _ _ _ _ _ _ => AuthenticationSession
  | proxy_loginPrompt _ _ => bool
  | provider_getSessions _ => list AuthenticationSession
  | provider_login _ _ => AuthenticationSession
  | _ => unit
  end.

(** An asynchronous method body: it returns, throws, or awaits a call and
    goes on with the reply. *)
Inductive Prog (A : Type) : Type :=
| Ret (a : A)
| Throw (e : Error)
| Await (c : Call) (k : Reply c -> Prog A).

Arguments Ret {A} a.
Arguments Throw {A} e.
Arguments Await {A} c k.

Inductive Outcome (A : Type) : Type :=
| Resolved (a : A)
| Rejected (e : Error).

Arguments Resolved {A} a.
Arguments Rejected {A} e.

(** The environment answers a call knowing the calls made before it. *)
Definition Handler : Type := forall (history : list Call) (c : Call), Reply c.

(** [run h trace p] executes [p]; it gives the calls made, in order, after
    those of [trace], and the way the promise settles. *)
Fixpoint run {A} (h : Handler) (trace : list Call) (p : Prog A) : list Call * Outcome A :=
  match p with
  | Ret a => (trace, Resolved a)
  | Throw e => (trace, Rejected e)
  | Await c k => run h (trace ++ [c]) (k (h trace c))
  end.

(** The way an awaited call settles: the promise is fulfilled with a
    reply or rejected with an error. *)
Inductive Settled (c : Call) : Type :=
| Fulfilled (r : Reply c)
| Failed (e : Error).

Arguments Fulfilled {c} r.
Arguments Failed {c} e.

(** The environment settles a call knowing the calls made before it. *)
Definition Environment : Type := forall (history : list Call) (c : Call), Settled c.

(** [run_settling env trace p] executes [p] in [env].  A call that is
    rejected has been made, and its error rejects the method: there is no
    [try] in the class. *)
Fixpoint run_settling {A} (env : Environment) (trace : list Call) (p : Prog A)
  : list Call * Outcome A :=
  match p with
  | Ret a => (trace, Resolved a)
  | Throw e => (trace, Rejected e)
  | Await c k =>
    match env trace c with
    | Fulfilled r => run_settling env (trace ++ [c]) (k r)
    | Failed e => (trace ++ [c], Rejected e)
    end
  end.

(** The environment that fulfils every call with the reply of [h]. *)
Definition replying (h : Handler) : Environment := fun history c => Fulfilled (h history c).

(** ** The object state *)

Record AuthenticationExtImpl := {
  authenticationProviders : gmap string AuthenticationProvider;
  _providerIds : list string;
  _providers : list AuthenticationProviderInformation;
  (** number of information objects built by this object so far *)
  allocated : nat;
  (** calls made synchronously so far, oldest first *)
  outbox : list Call
}.

Definition new_AuthenticationExtImpl : AuthenticationExtImpl :=
  {| authenticationProviders := ∅; _providerIds := []; _providers := [];
     allocated := 0%nat; outbox := [] |}.

(** Modelled from the spec: the class [Disposable] of [./types-impl] is not
    among the sources.  The handle keeps the callback it was built with
    until the first [dispose], which runs it and drops it; a later
    [dispose] does nothing.  The callback of a registration is determined
    by the provider it captures. *)
Record Disposable := { disposable : option AuthenticationProvider }.

(** ** Operations of [AuthenticationExtImpl] *)

Definition with_outbox (this : AuthenticationExtImpl) (calls : list Call) : AuthenticationExtImpl :=
  {| authenticationProviders := authenticationProviders this;
     _providerIds := _providerIds this;
     _providers := _providers this;
     allocated := allocated this;
     outbox := outbox this ++ calls |}.

(** The canonical scope key [scopes.sort().join(' ')] of a sorted copy. *)
Definition scope_key (scopes : list string) : string := JS.join " " (JS.sort scopes).

(** The predicate of the filter of line 77: the session's scopes, copied,
    sorted and joined, are the key of the request. *)
Definition session_matches (orderedScopes : string) (s : AuthenticationSession) : bool :=
  String.eqb (JS.join " " (JS.sort (session_scopes s))) orderedScopes.

(** [requestingExtension.model.displayName || requestingExtension.model.name]
    and [requestingExtension.model.id.toLowerCase()]. *)
Definition extensionName_of (requestingExtension : InternalPlugin) : string :=
  JS.or_else (model_displayName (model requestingExtension)) (model_name (model requestingExtension)).

Definition extensionId_of (requestingExtension : InternalPlugin) : string :=
  JS.toLowerCase (model_id (model requestingExtension)).

(** [getSession].  The first component is the contents of the caller's
    [scopes] array once the synchronous prefix of the method has run
    ([scopes.sort()] sorts that array itself); the second is the rest of
    the method.  The variable [scopes] of the source denotes the sorted
    array in every later use. *)
Definition getSession (this : AuthenticationExtImpl) (requestingExtension : InternalPlugin)
    (providerId : string) (scopes : list string) (options : AuthenticationGetSessionOptions)
  : list string * Prog (option AuthenticationSession) :=
  let extensionName := extensionName_of requestingExtension in
  let extensionId := extensionId_of requestingExtension in
  match authenticationProviders this !! providerId with
  | None => (scopes, Throw (ProviderNotFoundError providerId))
  | Some provider =>
    let scopes := JS.sort scopes in
    let orderedScopes := JS.join " " scopes in
    (scopes,
     Await (provider_getSessions provider) (fun all =>
       let sessions := List.filter (session_matches orderedScopes) all in
       match sessions with
       | session :: _ =>
         if negb (supportsMultipleAccounts provider) then
           Await (proxy_getSessionsPrompt providerId (account_label (account session))
                    (provider_label provider) extensionId extensionName)
             (fun allowed : bool =>
                if allowed then Ret (Some session) else Throw ConsentDeniedError)
         else
           Await (proxy_selectSession providerId (provider_label provider) extensionId extensionName
                    sessions scopes (JS.truthy (clearSessionPreference options)))
             (fun selected : AuthenticationSession =>
                Ret (JS.find (fun session => String.eqb (session_id session) (session_id selected))
                       sessions))
       | [] =>
         if JS.truthy (createIfNone options) then
           Await (proxy_loginPrompt (provider_label provider) extensionName)
             (fun isAllowed : bool =>
                if negb isAllowed then Throw ConsentDeniedError
                else
                  Await (provider_login provider scopes) (fun session : AuthenticationSession =>
                    Await (proxy_setTrustedExtensionAndAccountPreference providerId
                             (account_label (account session)) extensionId extensionName
                             (session_id session))
                      (fun _ => Ret (Some session))))
         else
           Await (proxy_requestNewSession providerId scopes extensionId extensionName)
             (fun _ => Ret None)
       end))
  end.

Definition logout (this : AuthenticationExtImpl) (providerId sessionId : string) : Prog unit :=
  match authenticationProviders this !! providerId with
  | None => Await (proxy_logout providerId sessionId) (fun _ => Ret tt)
  | Some provider => Await (provider_logout provider sessionId) (fun _ => Ret tt)
  end.

(** The callback handed to [new Disposable] at line 142, for the captured
    [provider]. *)
Definition unregister (provider : AuthenticationProvider) (this : AuthenticationExtImpl)
  : AuthenticationExtImpl :=
  let index := JS.findIndex (fun id => String.eqb id (provider_id provider)) (_providerIds this) in
  let i := JS.findIndex (fun p => String.eqb (info_id p) (provider_id provider)) (_providers this) in
  {| authenticationProviders := delete (provider_id provider) (authenticationProviders this);
     _providerIds := if -1 <? index then JS.splice (_providerIds this) index else _providerIds this;
     _providers := if -1 <? i then JS.splice (_providers this) i else _providers this;
     allocated := allocated this;
     outbox := outbox this ++
       [listener_dispose provider; proxy_unregisterAuthenticationProvider (provider_id provider)] |}.

(** [registerAuthenticationProvider]: the state after the call, and the
    exception thrown or the handle returned. *)
Definition registerAuthenticationProvider (this : AuthenticationExtImpl)
    (provider : AuthenticationProvider) : AuthenticationExtImpl * (Error + Disposable) :=
  match authenticationProviders this !! provider_id provider with
  | Some _ => (this, inl (DuplicateProviderError (provider_id provider)))
  | None =>
    let known := JS.find (fun p => String.eqb (info_id p) (provider_id provider)) (_providers this) in
    ({| authenticationProviders := <[provider_id provider := provider]> (authenticationProviders this);
        _providerIds :=
          if JS.indexOf (provider_id provider) (_providerIds this) =? -1
          then JS.push (_providerIds this) (provider_id provider)
          else _providerIds this;
        _providers :=
          match known with
          | None => JS.push (_providers this)
                      {| info_ref := Own (allocated this);
                         info_id := provider_id provider;
                         info_label := provider_label provider |}
          | Some _ => _providers this
          end;
        allocated := match known with None => S (allocated this) | Some _ => allocated this end;
        outbox := outbox this ++
          [provider_onDidChangeSessions provider;
           proxy_registerAuthenticationProvider (provider_id provider) (provider_label provider)
             (supportsMultipleAccounts provider)] |},
     inr {| disposable := Some provider |})
  end.

(** Modelled from the spec: [dispose] of the class [Disposable], which is
    not among the sources.  The first call runs the callback, a later call
    does nothing.  The result is the handle and the object after the call. *)
Definition dispose (d : Disposable) (this : AuthenticationExtImpl)
  : Disposable * AuthenticationExtImpl :=
  match disposable d with
  | Some provider => ({| disposable := None |}, unregister provider this)
  | None => (d, this)
  end.

(** The listener subscribed at line 136, called by the provider with [e]. *)
Definition sessions_listener (provider : AuthenticationProvider)
    (e : AuthenticationSessionsChangeEvent) (this : AuthenticationExtImpl) : AuthenticationExtImpl :=
  with_outbox this [proxy_updateSessions (provider_id provider) e].

Definition getProviderIds : Prog (list string) :=
  Await proxy_getProviderIds (fun ids => Ret ids).

(** [$login], [$logout], [$getSessions]: a miss throws synchronously. *)
Definition remote_login (this : AuthenticationExtImpl) (providerId : string) (scopes : list string)
  : Prog AuthenticationSession :=
  match authenticationProviders this !! providerId with
  | Some authProvider => Await (provider_login authProvider scopes) (fun s => Ret s)
  | None => Throw (UnknownHandleError providerId)
  end.

Definition remote_logout (this : AuthenticationExtImpl) (providerId sessionId : string) : Prog unit :=
  match authenticationProviders this !! providerId with
  | Some authProvider => Await (provider_logout authProvider sessionId) (fun _ => Ret tt)
  | None => Throw (UnknownHandleError providerId)
  end.

Definition remote_getSessions (this : AuthenticationExtImpl) (providerId : string)
  : Prog (list AuthenticationSession) :=
  match authenticationProviders this !! providerId with
  | Some authProvider => Await (provider_getSessions authProvider) (fun l => Ret l)
  | None => Throw (UnknownHandleError providerId)
  end.

(** [$onDidChangeAuthenticationSessions]. *)
Definition onDidChangeAuthenticationSessions (this : AuthenticationExtImpl) (id label : string)
    (event : AuthenticationSessionsChangeEvent) : AuthenticationExtImpl :=
  with_outbox this [fire_onDidChangeSessions id label event].

(** The two [forEach] bodies of [$onDidChangeAuthenticationProviders]. *)
Definition add_info (providers : list AuthenticationProviderInformation)
    (id : AuthenticationProviderInformation) : list AuthenticationProviderInformation :=
  if JS.indexOf id providers =? -1 then JS.push providers id else providers.

Definition remove_info (providers : list AuthenticationProviderInformation)
    (p : AuthenticationProviderInformation) : list AuthenticationProviderInformation :=
  let index := JS.findIndex (fun provider => String.eqb (info_id provider) (info_id p)) providers in
  if -1 <? index then JS.splice providers index else providers.

(** [$onDidChangeAuthenticationProviders]. *)
Definition onDidChangeAuthenticationProviders (this : AuthenticationExtImpl)
    (added removed : list AuthenticationProviderInformation) : AuthenticationExtImpl :=
  {| authenticationProviders := authenticationProviders this;
     _providerIds := _providerIds this;
     _providers := fold_left remove_info removed (fold_left add_info added (_providers this));
     allocated := allocated this;
     outbox := outbox this ++ [fire_onDidChangeAuthenticationProviders added removed] |}.

(** Calls that go to the main side. *)
Definition contacts_proxy (c : Call) : bool :=
  match c with
  | provider_getSessions _ | provider_login _ _ | provider_logout _ _
  | provider_onDidChangeSessions _ | listener_dispose _
  | fire_onDidChangeSessions _ _ _ | fire_onDidChangeAuthenticationProviders _ _ => false
  | _ => true
  end.

Definition is_provider_login (c : Call) : bool :=
  match c with provider_login _ _ => true | _ => false end.

Definition is_setTrustedExtensionAndAccountPreference (c : Call) : bool :=
  match c with proxy_setTrustedExtensionAndAccountPreference _ _ _ _ _ => true | _ => false end.

Definition is_requestNewSession (c : Call) : bool :=
  match c with proxy_requestNewSession _ _ _ _ => true | _ => false end.

(** The sessions of [all] that [getSession] keeps for a request of [scopes]. *)
Definition candidates (scopes : list string) (all : list AuthenticationSession)
  : list AuthenticationSession :=
  List.filter (session_matches (JS.join " " (JS.sort scopes))) all.

(** The elements of [l] before the first one that satisfies [f]: what is
    left of an array after [splice(findIndex(f))]. *)
Fixpoint before_first {A} (f : A -> bool) (l : list A) : list A :=
  match l with
  | [] => []
  | x :: l' => if f x then [] else x :: before_first f l'
  end.

(** ** Concrete objects used in the examples *)

Module Fixture.

Definition github : AuthenticationProvider :=
  {| provider_id := "github"; provider_label := "GitHub"; supportsMultipleAccounts := false |}.

Definition microsoft : AuthenticationProvider :=
  {| provider_id := "microsoft"; provider_label := "Microsoft"; supportsMultipleAccounts := true |}.

(** A second provider object that claims the id of [github]. *)
Definition github_clone : AuthenticationProvider :=
  {| provider_id := "github"; provider_label := "Other"; supportsMultipleAccounts := true |}.

Definition github_handle : Disposable := {| disposable := Some github |}.

Definition one_registered : AuthenticationExtImpl :=
  fst (registerAuthenticationProvider new_AuthenticationExtImpl github).

Definition two_registered : AuthenticationExtImpl :=
  fst (registerAuthenticationProvider one_registered microsoft).

(** Information objects as the RPC layer delivers them in a broadcast. *)
Definition remote_github (n : nat) : AuthenticationProviderInformation :=
  {| info_ref := Ext n; info_id := "github"; info_label := "GitHub" |}.

Definition remote_gitlab (n : nat) : AuthenticationProviderInformation :=
  {| info_ref := Ext n; info_id := "gitlab"; info_label := "GitLab" |}.

Definition plugin : InternalPlugin :=
  {| model := {| model_id := "Acme.Sync"; model_name := "sync";
                 model_displayName := Some "Acme Sync" |} |}.

Definition alice : AuthenticationSession :=
  {| session_id := "s1"; accessToken := "t1";
     account := {| account_id := "1"; account_label := "alice" |};
     session_scopes := ["repo"; "gist"] |}.

Definition bob : AuthenticationSession :=
  {| session_id := "s2"; accessToken := "t2";
     account := {| account_id := "2"; account_label := "bob" |};
     session_scopes := ["gist"; "repo"] |}.

Definition carol : AuthenticationSession :=
  {| session_id := "s3"; accessToken := "t3";
     account := {| account_id := "3"; account_label := "carol" |};
     session_scopes := ["user"] |}.

Definition no_options : AuthenticationGetSessionOptions :=
  {| createIfNone := None; clearSessionPreference := None |}.

Definition create_if_none : AuthenticationGetSessionOptions :=
  {| createIfNone := Some true; clearSessionPreference := None |}.

(** An environment: every provider holds [sessions] and logs in as
    [fresh]; the user answers every prompt with [consent] and picks the
    session [choice]. *)
Definition scripted (sessions : list AuthenticationSession) (consent : bool)
    (choice fresh : AuthenticationSession) : Handler :=
  fun _ c =>
    match c return Reply c with
    | proxy_getProviderIds => []
    | proxy_getSessionsPrompt _ _ _ _ _ => consent
    | proxy_selectSession _ _ _ _ _ _ _ => choice
    | proxy_loginPrompt _ _ => consent
    | provider_getSessions _ => sessions
    | provider_login _ _ => fresh
    | _ => tt
    end.

(** A session whose one scope holds the delimiter. *)
Definition joined : AuthenticationSession :=
  {| session_id := "s4"; accessToken := "t4";
     account := {| account_id := "4"; account_label := "dave" |};
     session_scopes := ["gist repo"] |}.

(** The object after a broadcast announced "github", hosted elsewhere. *)
Definition github_announced : AuthenticationExtImpl :=
  onDidChangeAuthenticationProviders new_AuthenticationExtImpl [remote_github 0] [].

Definition own_github : AuthenticationProviderInformation :=
  {| info_ref := Own 0; info_id := "github"; info_label := "GitHub" |}.

Definition own_microsoft : AuthenticationProviderInformation :=
  {| info_ref := Own 1; info_id := "microsoft"; info_label := "Microsoft" |}.

(** The environment of [h] in which the calls selected by [broken] are
    rejected with [e]. *)
Definition failing (h : Handler) (broken : Call -> bool) (e : Error) : Environment :=
  fun history c => if broken c then Failed e else Fulfilled (h history c).

Definition connection_closed : Error := MkError "connection is closed".

End Fixture.

(** ** Sequences of synchronous entry points *)

(** Calls by which the main side is asked before a session is handed out. *)
Definition is_consent_call (c : Call) : bool :=
  match c with
  | proxy_getSessionsPrompt _ _ _ _ _ | proxy_selectSession _ _ _ _ _ _ _
  | proxy_loginPrompt _ _ => true
  | _ => false
  end.

Definition is_selectSession (c : Call) : bool :=
  match c with proxy_selectSession _ _ _ _ _ _ _ => true | _ => false end.

(** One synchronous entry into the object: a registration, the run of the
    callback of a registration handle, a broadcast of the main side, an
    event of a provider. *)
Inductive Operation :=
| op_register (provider : AuthenticationProvider)
| op_unregister (provider : AuthenticationProvider)
| op_providers_changed (added removed : list AuthenticationProviderInformation)
| op_sessions_changed (id label : string) (event : AuthenticationSessionsChangeEvent)
| op_provider_event (provider : AuthenticationProvider) (e : AuthenticationSessionsChangeEvent).

Definition step (this : AuthenticationExtImpl) (op : Operation) : AuthenticationExtImpl :=
  match op with
  | op_register provider => fst (registerAuthenticationProvider this provider)
  | op_unregister provider => unregister provider this
  | op_providers_changed added removed => onDidChangeAuthenticationProviders this added removed
  | op_sessions_changed id label event => onDidChangeAuthenticationSessions this id label event
  | op_provider_event provider e => sessions_listener provider e this
  end.

Definition after (ops : list Operation) : AuthenticationExtImpl :=
  fold_left step ops new_AuthenticationExtImpl.

(** * Properties *)

(** ** Sorting and the canonical scope key *)

Section ScopeKey.

Lemma sort_Sorted (l : list string) : Sorted String.le (JS.sort l).
Proof. unfold JS.sort. apply Sorted_merge_sort; apply _. Qed.

Lemma sort_Permutation (l : list string) : JS.sort l ≡ₚ l.
Proof. unfold JS.sort. apply merge_sort_Permutation. Qed.

(** Two arrays with the same contents sort to the same array. *)
Lemma sort_permutation_invariant (l1 l2 : list string) :
  l1 ≡ₚ l2 -> JS.sort l1 = JS.sort l2.
Proof.
  intros Hp. apply (Sorted_unique String.le); try apply sort_Sorted.
  now rewrite !sort_Permutation.
Qed.

Lemma sort_idempotent (l : list string) : JS.sort (JS.sort l) = JS.sort l.
Proof. apply sort_permutation_invariant, sort_Permutation. Qed.

Lemma scope_key_permutation_invariant (l1 l2 : list string) :
  l1 ≡ₚ l2 -> scope_key l1 = scope_key l2.
Proof. intros Hp. unfold scope_key. now rewrite (sort_permutation_invariant l1 l2). Qed.

Lemma session_matches_permutation (s : AuthenticationSession) (S2 : list string) :
  session_scopes s ≡ₚ S2 -> session_matches (JS.join " " (JS.sort S2)) s = true.
Proof.
  intros Hp. unfold session_matches.
  rewrite (sort_permutation_invariant _ _ Hp). apply String.eqb_refl.
Qed.

End ScopeKey.

(** C4.  The filter of [getSession] keeps a session whose scopes are a
    permutation of the requested scopes, and the canonical scope keys of
    two permuted scope arrays are equal; the comparison is exact on case
    and on repeated entries: a session with scopes ["a","b"] is kept for a
    request of ["b","a"], not for ["A","b"] and not for ["a","a","b"]. *)
Theorem getSession_match_permutation_invariant :
  (forall (s : AuthenticationSession) (S2 : list string) (all : list AuthenticationSession),
      session_scopes s ≡ₚ S2 -> In s all ->
      scope_key (session_scopes s) = scope_key S2 /\ In s (candidates S2 all)) /\
  (forall (s : AuthenticationSession) (all : list AuthenticationSession),
      session_scopes s = ["a"; "b"] -> In s all ->
      In s (candidates ["b"; "a"] all) /\
      ~ In s (candidates ["A"; "b"] all) /\
      ~ In s (candidates ["a"; "a"; "b"] all)).
Proof.
  split.
  - intros s S2 all Hp Hin. split.
    + now apply scope_key_permutation_invariant.
    + unfold candidates. apply filter_In. split; [exact Hin|].
      now apply session_matches_permutation.
  - intros s all Hs Hin. unfold candidates. rewrite !filter_In.
    unfold session_matches. rewrite Hs. repeat split.
    + exact Hin.
    + intros [_ Hm]. vm_compute in Hm. discriminate Hm.
    + intros [_ Hm]. vm_compute in Hm. discriminate Hm.
Qed.

(** ** Environments that fulfil every call *)

(** [run] is [run_settling] in an environment where no call is rejected. *)
Lemma run_settling_replying {A} (h : Handler) (p : Prog A) (t : list Call) :
  run_settling (replying h) t p = run h t p.
Proof.
  revert t. induction p as [a|e|c k IH]; intros t; cbn; [reflexivity..|]. apply IH.
Qed.

(** A rejected call ends the method with the error of the call, whatever
    the method would do with a reply. *)
Lemma run_settling_rejected {A} (env : Environment) (t : list Call) (c : Call)
    (k : Reply c -> Prog A) (e : Error) :
  env t c = Failed e -> run_settling env t (Await c k) = (t ++ [c], Rejected e).
Proof. intros Hfail. cbn. now rewrite Hfail. Qed.

(** ** [getSession] and [logout] *)

Section Broker.

Variable this : AuthenticationExtImpl.
Variable requestingExtension : InternalPlugin.
Variable providerId : string.
Variable scopes : list string.
Variable options : AuthenticationGetSessionOptions.
Variable provider : AuthenticationProvider.
Hypothesis registered : authenticationProviders this !! providerId = Some provider.

Lemma getSession_scopes_after :
  fst (getSession this requestingExtension providerId scopes options) = JS.sort scopes.
Proof using registered. unfold getSession. now rewrite registered. Qed.

(** The rest of the method after the provider was found. *)
Lemma getSession_awaits_getSessions (h : Handler) (t : list Call) :
  run h t (snd (getSession this requestingExtension providerId scopes options)) =
  run h t (Await (provider_getSessions provider) (fun all =>
    match candidates scopes all with
    | session :: _ =>
      if negb (supportsMultipleAccounts provider) then
        Await (proxy_getSessionsPrompt providerId (account_label (account session))
                 (provider_label provider) (extensionId_of requestingExtension)
                 (extensionName_of requestingExtension))
          (fun allowed : bool =>
             if allowed then Ret (Some session) else Throw ConsentDeniedError)
      else
        Await (proxy_selectSession providerId (provider_label provider)
                 (extensionId_of requestingExtension) (extensionName_of requestingExtension)
                 (candidates scopes all) (JS.sort scopes)
                 (JS.truthy (clearSessionPreference options)))
          (fun selected : AuthenticationSession =>
             Ret (JS.find (fun session => String.eqb (session_id session) (session_id selected))
                    (candidates scopes all)))
    | [] =>
      if JS.truthy (createIfNone options) then
        Await (proxy_loginPrompt (provider_label provider) (extensionName_of requestingExtension))
          (fun isAllowed : bool =>
             if negb isAllowed then Throw ConsentDeniedError
             else
               Await (provider_login provider (JS.sort scopes))
                 (fun session : AuthenticationSession =>
                    Await (proxy_setTrustedExtensionAndAccountPreference providerId
                             (account_label (account session))
                             (extensionId_of requestingExtension)
                             (extensionName_of requestingExtension) (session_id session))
                      (fun _ => Ret (Some session))))
      else
        Await (proxy_requestNewSession providerId (JS.sort scopes)
                 (extensionId_of requestingExtension) (extensionName_of requestingExtension))
          (fun _ => Ret None)
    end)).
Proof using registered. unfold getSession. now rewrite registered. Qed.

(** C6.  With [createIfNone] not set and no session of the provider
    matching the canonical scope key, [getSession] asks the provider for
    its sessions and then makes exactly one call, [$requestNewSession], to
    the main side, which it awaits: it resolves to [undefined] when that
    call is fulfilled, and is rejected with the call's error when the call
    is rejected. *)
Theorem getSession_no_match_outcome (env : Environment) (t : list Call)
    (all : list AuthenticationSession) :
  JS.truthy (createIfNone options) = false ->
  env t (provider_getSessions provider) = @Fulfilled (provider_getSessions provider) all ->
  candidates scopes all = [] ->
  fst (run_settling env t (snd (getSession this requestingExtension providerId scopes options))) =
    t ++ [provider_getSessions provider;
          proxy_requestNewSession providerId (JS.sort scopes)
            (extensionId_of requestingExtension) (extensionName_of requestingExtension)] /\
  length (List.filter is_requestNewSession
            (drop (length t)
               (fst (run_settling env t
                       (snd (getSession this requestingExtension providerId scopes options))))))
    = 1%nat /\
  snd (run_settling env t (snd (getSession this requestingExtension providerId scopes options))) =
    match env (t ++ [provider_getSessions provider])
            (proxy_requestNewSession providerId (JS.sort scopes)
               (extensionId_of requestingExtension) (extensionName_of requestingExtension)) with
    | Fulfilled _ => Resolved None
    | Failed e => Rejected e
    end.
Proof.
  intros Hopt Hall Hnone. unfold candidates in Hnone.
  unfold getSession. rewrite registered. cbn [snd run_settling].
  rewrite Hall, Hnone, Hopt. cbn [run_settling].
  destruct (env (t ++ [provider_getSessions provider]) _) as [[]|e]; cbn [run_settling fst snd];
    rewrite <- app_assoc; cbn [app]; rewrite drop_app_length; repeat split.
Qed.

(** C7.  With [createIfNone] set and no matching session, the main side
    is asked for consent with [$loginPrompt].  When it is declined the
    promise is rejected with "User did not consent to login." and no call
    of [provider.login] is made.  When it is granted, [provider.login] is
    called with the scopes array; when the login is fulfilled,
    [$setTrustedExtensionAndAccountPreference] is called with the account
    label and the id of the new session, and the new session is returned
    when that call is fulfilled.  A rejection of the login or of the call
    that persists the preference rejects [getSession] with the same
    error. *)
Theorem getSession_createIfNone_outcome (env : Environment) (t : list Call)
    (all : list AuthenticationSession) :
  JS.truthy (createIfNone options) = true ->
  env t (provider_getSessions provider) = @Fulfilled (provider_getSessions provider) all ->
  candidates scopes all = [] ->
  (env (t ++ [provider_getSessions provider])
     (proxy_loginPrompt (provider_label provider) (extensionName_of requestingExtension))
     = @Fulfilled (proxy_loginPrompt (provider_label provider)
                     (extensionName_of requestingExtension)) false ->
   run_settling env t (snd (getSession this requestingExtension providerId scopes options)) =
     (t ++ [provider_getSessions provider;
            proxy_loginPrompt (provider_label provider) (extensionName_of requestingExtension)],
      Rejected ConsentDeniedError) /\
   List.filter is_provider_login
     (drop (length t)
        (fst (run_settling env t
                (snd (getSession this requestingExtension providerId scopes options))))) = []) /\
  (env (t ++ [provider_getSessions provider])
     (proxy_loginPrompt (provider_label provider) (extensionName_of requestingExtension))
     = @Fulfilled (proxy_loginPrompt (provider_label provider)
                     (extensionName_of requestingExtension)) true ->
   (forall session : AuthenticationSession,
      env (t ++ [provider_getSessions provider;
                 proxy_loginPrompt (provider_label provider)
                   (extensionName_of requestingExtension)])
          (provider_login provider (JS.sort scopes))
        = @Fulfilled (provider_login provider (JS.sort scopes)) session ->
      fst (run_settling env t
             (snd (getSession this requestingExtension providerId scopes options))) =
        t ++ [provider_getSessions provider;
              proxy_loginPrompt (provider_label provider) (extensionName_of requestingExtension);
              provider_login provider (JS.sort scopes);
              proxy_setTrustedExtensionAndAccountPreference providerId
                (account_label (account session)) (extensionId_of requestingExtension)
                (extensionName_of requestingExtension) (session_id session)] /\
      snd (run_settling env t
             (snd (getSession this requestingExtension providerId scopes options))) =
        match env (t ++ [provider_getSessions provider;
                         proxy_loginPrompt (provider_label provider)
                           (extensionName_of requestingExtension);
                         provider_login provider (JS.sort scopes)])
                (proxy_setTrustedExtensionAndAccountPreference providerId
                   (account_label (account session)) (extensionId_of requestingExtension)
                   (extensionName_of requestingExtension) (session_id session)) with
        | Fulfilled _ => Resolved (Some session)
        | Failed e => Rejected e
        end) /\
   (forall e : Error,
      env (t ++ [provider_getSessions provider;
                 proxy_loginPrompt (provider_label provider)
                   (extensionName_of requestingExtension)])
          (provider_login provider (JS.sort scopes)) = Failed e ->
      run_settling env t (snd (getSession this requestingExtension providerId scopes options)) =
        (t ++ [provider_getSessions provider;
               proxy_loginPrompt (provider_label provider) (extensionName_of requestingExtension);
               provider_login provider (JS.sort scopes)],
         Rejected e))).
Proof.
  intros Hopt Hall Hnone. unfold candidates in Hnone.
  unfold getSession. rewrite registered. cbn [snd run_settling].
  rewrite Hall, Hnone, Hopt. cbn [run_settling]. split.
  - intros Hdeclined. rewrite Hdeclined. cbn [negb run_settling fst].
    rewrite <- app_assoc. cbn [app]. now rewrite drop_app_length.
  - intros Hgranted. rewrite Hgranted. cbn [negb run_settling].
    rewrite <- !app_assoc. cbn [app]. split.
    + intros session Hlogin. rewrite Hlogin. cbn [run_settling].
      rewrite <- !app_assoc. cbn [app].
      destruct (env _ (proxy_setTrustedExtensionAndAccountPreference _ _ _ _ _)) as [[]|e];
        cbn [run_settling fst snd]; rewrite <- ?app_assoc; cbn [app]; split; reflexivity.
    + intros e Hlogin. rewrite Hlogin. now rewrite <- ?app_assoc.
Qed.

(** C8.  For a provider that supports multiple accounts and has at least
    one matching session, [$selectSession] is called with the matching
    sessions; the result is the first matching session whose id is the
    id of the reply: a session of the candidates with that id when there
    is one, [undefined] (and no error) when there is none. *)
Theorem getSession_multi_account_selection (h : Handler) (t : list Call)
    (selected : AuthenticationSession) :
  supportsMultipleAccounts provider = true ->
  candidates scopes (h t (provider_getSessions provider)) <> [] ->
  selected = h (t ++ [provider_getSessions provider])
               (proxy_selectSession providerId (provider_label provider)
                  (extensionId_of requestingExtension) (extensionName_of requestingExtension)
                  (candidates scopes (h t (provider_getSessions provider))) (JS.sort scopes)
                  (JS.truthy (clearSessionPreference options))) ->
  exists result : option AuthenticationSession,
    run h t (snd (getSession this requestingExtension providerId scopes options)) =
      (t ++ [provider_getSessions provider;
             proxy_selectSession providerId (provider_label provider)
               (extensionId_of requestingExtension) (extensionName_of requestingExtension)
               (candidates scopes (h t (provider_getSessions provider))) (JS.sort scopes)
               (JS.truthy (clearSessionPreference options))],
       Resolved result) /\
    result = JS.find (fun s => String.eqb (session_id s) (session_id selected))
               (candidates scopes (h t (provider_getSessions provider))) /\
    (forall s, result = Some s ->
       In s (candidates scopes (h t (provider_getSessions provider))) /\
       session_id s = session_id selected) /\
    ((exists s, In s (candidates scopes (h t (provider_getSessions provider))) /\
                session_id s = session_id selected) ->
     exists s, result = Some s) /\
    ((forall s, In s (candidates scopes (h t (provider_getSessions provider))) ->
                session_id s <> session_id selected) ->
     result = None).
Proof.
  intros Hmulti Hsome Hsel.
  eexists. split; [|split; [reflexivity|]].
  - rewrite getSession_awaits_getSessions. cbn [run].
    destruct (candidates scopes (h t (provider_getSessions provider))) as [|s0 rest] eqn:Hc;
      [congruence|].
    rewrite Hmulti. cbn [negb run]. rewrite <- app_assoc. cbn [app].
    now rewrite Hsel.
  - unfold JS.find. repeat split.
    + now apply find_some in H.
    + apply find_some in H. now apply String.eqb_eq.
    + intros (s & Hin & Hid).
      destruct (List.find _ _) as [s'|] eqn:Hf; [now exists s'|].
      apply (find_none _ _ Hf) in Hin. cbn beta in Hin.
      rewrite Hid, String.eqb_refl in Hin. discriminate Hin.
    + intros Hno.
      destruct (List.find _ _) as [s'|] eqn:Hf; [|reflexivity].
      apply find_some in Hf as [Hin Hid]. apply String.eqb_eq in Hid.
      now apply Hno in Hin.
Qed.

(** C10.  [getSession] on a registered provider sorts the caller's scopes
    array itself: after the call the array holds the sorted permutation
    of its former contents, and the scopes passed to [$selectSession] are
    that sorted array. *)
Theorem getSession_sorts_caller_scopes :
  fst (getSession this requestingExtension providerId scopes options) = JS.sort scopes /\
  Sorted String.le (fst (getSession this requestingExtension providerId scopes options)) /\
  fst (getSession this requestingExtension providerId scopes options) ≡ₚ scopes /\
  forall (h : Handler) (t : list Call),
    supportsMultipleAccounts provider = true ->
    candidates scopes (h t (provider_getSessions provider)) <> [] ->
    fst (run h t (snd (getSession this requestingExtension providerId scopes options))) =
      t ++ [provider_getSessions provider;
            proxy_selectSession providerId (provider_label provider)
              (extensionId_of requestingExtension) (extensionName_of requestingExtension)
              (candidates scopes (h t (provider_getSessions provider)))
              (fst (getSession this requestingExtension providerId scopes options))
              (JS.truthy (clearSessionPreference options))].
Proof.
  rewrite getSession_scopes_after.
  split; [reflexivity|]. split; [apply sort_Sorted|]. split; [apply sort_Permutation|].
  intros h t Hmulti Hsome.
  rewrite getSession_awaits_getSessions. cbn [run].
  destruct (candidates scopes (h t (provider_getSessions provider))) as [|s0 rest] eqn:Hc;
    [congruence|].
  rewrite Hmulti. cbn [negb run fst]. now rewrite <- app_assoc.
Qed.

End Broker.

(** C9.  [logout] on a provider registered in this process calls the
    provider's [logout] with the session id and makes no call to the main
    side; when no provider has that id, it forwards the provider id and the
    session id to the main side's [$logout]. *)
Theorem logout_delegates_or_forwards (this : AuthenticationExtImpl)
    (providerId sessionId : string) (h : Handler) (t : list Call) :
  (forall provider, authenticationProviders this !! providerId = Some provider ->
     run h t (logout this providerId sessionId) =
       (t ++ [provider_logout provider sessionId], Resolved tt) /\
     List.filter contacts_proxy
       (drop (length t) (fst (run h t (logout this providerId sessionId)))) = []) /\
  (authenticationProviders this !! providerId = None ->
     run h t (logout this providerId sessionId) =
       (t ++ [proxy_logout providerId sessionId], Resolved tt)).
Proof.
  unfold logout. split.
  - intros provider ->. cbn [run fst]. split; [reflexivity|].
    now rewrite drop_app_length.
  - intros ->. reflexivity.
Qed.

(** ** The provider registry *)

(** C5.  Registering a provider whose id is already in the map throws
    "An authentication provider with id '...' is already registered." and
    leaves the object as it was: the provider registered first is still
    the one found under the id, and the id list and the information list
    are unchanged. *)
Theorem register_duplicate_rejected (this : AuthenticationExtImpl)
    (first second : AuthenticationProvider) :
  authenticationProviders this !! provider_id second = Some first ->
  registerAuthenticationProvider this second =
    (this, inl (DuplicateProviderError (provider_id second))) /\
  authenticationProviders (fst (registerAuthenticationProvider this second))
    !! provider_id second = Some first /\
  _providerIds (fst (registerAuthenticationProvider this second)) = _providerIds this /\
  _providers (fst (registerAuthenticationProvider this second)) = _providers this.
Proof.
  intros Hfirst. unfold registerAuthenticationProvider. rewrite Hfirst. cbn [fst].
  now rewrite Hfirst.
Qed.

(** *** Positions and prefixes *)

Section Positions.

Context {A : Type} (f : A -> bool).

Lemma findIndex_from_spec (l : list A) (i : Z) :
  0 <= i ->
  (JS.findIndex_from f l i = -1 /\ before_first f l = l /\ forallb (fun x => negb (f x)) l = true) \/
  (i <= JS.findIndex_from f l i < i + Z.of_nat (length l) /\
   before_first f l = take (Z.to_nat (JS.findIndex_from f l i - i)) l).
Proof.
  revert i. induction l as [|x l IH]; intros i Hi; cbn [JS.findIndex_from before_first forallb].
  - left. auto.
  - destruct (f x) eqn:Hx.
    + right. split; [cbn [length]; lia|]. now replace (i - i) with 0 by lia.
    + destruct (IH (i + 1)) as [(Hr & Hb & Hall) | (Hr & Hb)]; [lia|..].
      * left. now rewrite Hr, Hb, Hall.
      * right. split; [cbn [length]; lia|].
        rewrite Hb.
        replace (Z.to_nat (JS.findIndex_from f l (i + 1) - i))
          with (S (Z.to_nat (JS.findIndex_from f l (i + 1) - (i + 1)))) by lia.
        reflexivity.
Qed.

(** [findIndex] followed by the guarded [splice(index)] keeps the
    elements before the first hit and drops the hit and all that
    follows it. *)
Lemma splice_at_findIndex (l : list A) :
  (if -1 <? JS.findIndex f l then JS.splice l (JS.findIndex f l) else l) = before_first f l.
Proof.
  unfold JS.findIndex.
  destruct (findIndex_from_spec l 0) as [(Hr & Hb & _) | (Hr & Hb)]; [lia|..].
  - rewrite Hr. cbn. now rewrite Hb.
  - destruct (Z.ltb_spec (-1) (JS.findIndex_from f l 0)); [|lia].
    unfold JS.splice.
    destruct (Z.ltb_spec (JS.findIndex_from f l 0) 0); [lia|].
    rewrite Hb. f_equal. lia.
Qed.

Lemma findIndex_absent (l : list A) :
  JS.findIndex f l = -1 <-> forallb (fun x => negb (f x)) l = true.
Proof.
  unfold JS.findIndex.
  destruct (findIndex_from_spec l 0) as [(Hr & Hb & Hall) | (Hr & Hb)]; [lia|..].
  - tauto.
  - split; [lia|]. intros Hall. exfalso.
    assert (Hlen : length (before_first f l) = length l).
    { clear Hr Hb. induction l as [|x l IH]; [reflexivity|].
      cbn in Hall |- *. destruct (f x); [discriminate|]. cbn in Hall |- *.
      now rewrite IH. }
    rewrite Hb, length_take in Hlen. lia.
Qed.

Lemma before_first_absent (l : list A) :
  forallb (fun x => negb (f x)) l = true -> before_first f l = l.
Proof.
  induction l as [|x l IH]; [reflexivity|]. cbn.
  destruct (f x); [discriminate|]. cbn. intros Hall. now rewrite IH.
Qed.

Lemma before_first_prefix (l : list A) :
  exists rest, l = before_first f l ++ rest.
Proof.
  induction l as [|x l [rest IH]]; [now exists []|]. cbn.
  destruct (f x); [now exists (x :: l)|]. exists rest. cbn. now rewrite <- IH.
Qed.

Lemma before_first_no_hit (l : list A) :
  forallb (fun x => negb (f x)) (before_first f l) = true.
Proof.
  induction l as [|x l IH]; [reflexivity|]. cbn.
  destruct (f x) eqn:Hx; [reflexivity|]. cbn. now rewrite Hx.
Qed.

End Positions.

(** *** What the registry operations do to the lists *)

Lemma unregister_providerIds (provider : AuthenticationProvider) (this : AuthenticationExtImpl) :
  _providerIds (unregister provider this) =
  before_first (fun id => String.eqb id (provider_id provider)) (_providerIds this).
Proof. unfold unregister. cbn [_providerIds]. apply splice_at_findIndex. Qed.

Lemma unregister_providers (provider : AuthenticationProvider) (this : AuthenticationExtImpl) :
  _providers (unregister provider this) =
  before_first (fun p => String.eqb (info_id p) (provider_id provider)) (_providers this).
Proof. unfold unregister. cbn [_providers]. apply splice_at_findIndex. Qed.

Lemma unregister_lookup (provider : AuthenticationProvider) (this : AuthenticationExtImpl)
    (other : string) :
  authenticationProviders (unregister provider this) !! other =
  if decide (provider_id provider = other) then None
  else authenticationProviders this !! other.
Proof.
  unfold unregister. cbn [authenticationProviders]. case_decide as Hid.
  - subst other. apply lookup_delete_eq.
  - now apply lookup_delete_ne.
Qed.

(** A handle that was disposed does nothing when disposed again. *)
Lemma dispose_again (d : Disposable) (this : AuthenticationExtImpl) :
  dispose (fst (dispose d this)) (snd (dispose d this)) = dispose d this.
Proof. destruct d as [[provider|]]; reflexivity. Qed.

Lemma remove_info_before_first (providers : list AuthenticationProviderInformation)
    (p : AuthenticationProviderInformation) :
  remove_info providers p =
  before_first (fun provider => String.eqb (info_id provider) (info_id p)) providers.
Proof. unfold remove_info. apply splice_at_findIndex. Qed.

(** Removing an id that no entry has leaves the list as it is. *)
Lemma remove_info_absent (providers : list AuthenticationProviderInformation)
    (p : AuthenticationProviderInformation) :
  (forall q, In q providers -> info_id q <> info_id p) ->
  remove_info providers p = providers.
Proof.
  intros Habsent. rewrite remove_info_before_first. apply before_first_absent.
  apply forallb_forall. intros q Hq. apply negb_true_iff, String.eqb_neq.
  now apply Habsent.
Qed.

(** After a removal no entry of the list has the removed id. *)
Lemma remove_info_gone (providers : list AuthenticationProviderInformation)
    (p q : AuthenticationProviderInformation) :
  In q (remove_info providers p) -> info_id q <> info_id p.
Proof.
  rewrite remove_info_before_first. intros Hq.
  pose proof (before_first_no_hit
    (fun provider => String.eqb (info_id provider) (info_id p)) providers) as Hall.
  rewrite forallb_forall in Hall. apply Hall in Hq.
  now apply negb_true_iff, String.eqb_neq in Hq.
Qed.

(** An added object is appended unless that very object is in the list. *)
Lemma add_info_by_reference (providers : list AuthenticationProviderInformation)
    (x : AuthenticationProviderInformation) :
  add_info providers x =
  if forallb (fun y => negb (bool_decide (info_ref y = info_ref x))) providers
  then providers ++ [x] else providers.
Proof.
  unfold add_info, JS.indexOf, JS.push.
  pose proof (findIndex_absent (fun y => JS.strict_eq y x) providers) as Habs.
  unfold JS.strict_eq, info_strict_eq in *.
  destruct (forallb _ providers) eqn:Hall.
  - now rewrite (proj2 Habs eq_refl).
  - destruct (Z.eqb_spec (JS.findIndex (fun y => bool_decide (info_ref y = info_ref x)) providers) (-1))
      as [Heq|Hne]; [|reflexivity].
    apply Habs in Heq. discriminate Heq.
Qed.

(** When the provider's id and entry are the last of both lists, the
    callback removes exactly them. *)
Lemma unregister_last (provider : AuthenticationProvider) (this : AuthenticationExtImpl)
    (ids : list string) (infos : list AuthenticationProviderInformation)
    (entry : AuthenticationProviderInformation) :
  _providerIds this = ids ++ [provider_id provider] ->
  _providers this = infos ++ [entry] ->
  info_id entry = provider_id provider ->
  ~ In (provider_id provider) ids ->
  ~ In (provider_id provider) (map info_id infos) ->
  _providerIds (unregister provider this) = ids /\
  _providers (unregister provider this) = infos.
Proof.
  intros Hids Hinfos Hentry Hfresh Hfresh'.
  rewrite unregister_providerIds, unregister_providers, Hids, Hinfos. split.
  - clear -Hfresh. induction ids as [|x ids IH]; cbn.
    + now rewrite String.eqb_refl.
    + destruct (String.eqb_spec x (provider_id provider)) as [->|_].
      * exfalso. apply Hfresh. now left.
      * f_equal. apply IH. intros Hin. apply Hfresh. now right.
  - clear -Hfresh' Hentry. induction infos as [|x infos IH]; cbn.
    + now rewrite Hentry, String.eqb_refl.
    + destruct (String.eqb_spec (info_id x) (provider_id provider)) as [Heq|_].
      * exfalso. apply Hfresh'. now left.
      * f_equal. apply IH. intros Hin. apply Hfresh'. now right.
Qed.

(** C1.  The callback of the handle calls [splice(index)] without a delete
    count: with "github" registered before "microsoft", disposing the
    handle of "github" empties the id list and the information list, while
    "microsoft" is still in the map. *)
Theorem dispose_first_of_two_empties_lists :
  snd (registerAuthenticationProvider new_AuthenticationExtImpl Fixture.github)
    = inr Fixture.github_handle /\
  _providerIds Fixture.two_registered = ["github"; "microsoft"] /\
  map info_id (_providers Fixture.two_registered) = ["github"; "microsoft"] /\
  _providerIds (snd (dispose Fixture.github_handle Fixture.two_registered)) = [] /\
  _providers (snd (dispose Fixture.github_handle Fixture.two_registered)) = [] /\
  authenticationProviders (snd (dispose Fixture.github_handle Fixture.two_registered))
    !! "microsoft" = Some Fixture.microsoft.
Proof. repeat split; vm_compute; reflexivity. Qed.

(** C2.  [indexOf] compares the objects, not their ids: a broadcast that
    adds "github" when the information list already has an entry with that
    id appends a second entry, and the same broadcast delivered again (in
    fresh objects) appends a third.  Even with the very same objects, the
    broadcast {added: gitlab, removed: github} gives the empty list when
    applied once and [gitlab] when applied twice. *)
Theorem remote_added_duplicates_known_id :
  map info_id (_providers Fixture.one_registered) = ["github"] /\
  map info_id (_providers
    (onDidChangeAuthenticationProviders Fixture.one_registered [Fixture.remote_github 0] []))
    = ["github"; "github"] /\
  map info_id (_providers
    (onDidChangeAuthenticationProviders
       (onDidChangeAuthenticationProviders Fixture.one_registered [Fixture.remote_github 0] [])
       [Fixture.remote_github 1] []))
    = ["github"; "github"; "github"] /\
  _providers
    (onDidChangeAuthenticationProviders Fixture.one_registered
       [Fixture.remote_gitlab 0] [Fixture.remote_github 1]) = [] /\
  _providers
    (onDidChangeAuthenticationProviders
       (onDidChangeAuthenticationProviders Fixture.one_registered
          [Fixture.remote_gitlab 0] [Fixture.remote_github 1])
       [Fixture.remote_gitlab 0] [Fixture.remote_github 1]) = [Fixture.remote_gitlab 0].
Proof. repeat split; vm_compute; reflexivity. Qed.

(** C3.  The removal calls [splice(index)] without a delete count: with the
    entries of "github" and "microsoft" in the list, in this order, a
    broadcast that removes "github" leaves the list empty; the entry of
    "microsoft", whose id is not removed, is lost. *)
Theorem remote_removed_drops_later_entries :
  map info_id (_providers Fixture.two_registered) = ["github"; "microsoft"] /\
  _providers
    (onDidChangeAuthenticationProviders Fixture.two_registered [] [Fixture.remote_github 0]) = [].
Proof. split; vm_compute; reflexivity. Qed.

(** ** The theorems at concrete inputs *)

Lemma getSession_match_permutation_invariant_example :
  session_scopes Fixture.bob ≡ₚ ["repo"; "gist"] /\
  In Fixture.bob (candidates ["repo"; "gist"] [Fixture.carol; Fixture.bob]).
Proof.
  assert (Hp : session_scopes Fixture.bob ≡ₚ ["repo"; "gist"]) by apply perm_swap.
  split; [exact Hp|].
  apply (proj1 getSession_match_permutation_invariant Fixture.bob ["repo"; "gist"]
           [Fixture.carol; Fixture.bob] Hp).
  right. left. reflexivity.
Defined.

Lemma register_duplicate_rejected_example :
  authenticationProviders Fixture.one_registered !! "github" = Some Fixture.github /\
  registerAuthenticationProvider Fixture.one_registered Fixture.github_clone =
    (Fixture.one_registered, inl (DuplicateProviderError "github")).
Proof.
  assert (H : authenticationProviders Fixture.one_registered
                !! provider_id Fixture.github_clone = Some Fixture.github)
    by (vm_compute; reflexivity).
  split; [exact H|].
  exact (proj1 (register_duplicate_rejected Fixture.one_registered Fixture.github
                  Fixture.github_clone H)).
Defined.

Lemma getSession_no_match_outcome_example :
  run_settling
    (replying (Fixture.scripted [Fixture.carol] true Fixture.carol Fixture.alice)) []
    (snd (getSession Fixture.two_registered Fixture.plugin "github" ["repo"; "gist"]
            Fixture.no_options)) =
  ([provider_getSessions Fixture.github;
    proxy_requestNewSession "github" ["gist"; "repo"] "acme.sync" "Acme Sync"],
   Resolved None).
Proof.
  destruct (getSession_no_match_outcome Fixture.two_registered Fixture.plugin "github"
              ["repo"; "gist"] Fixture.no_options Fixture.github
              ltac:(vm_compute; reflexivity)
              (replying (Fixture.scripted [Fixture.carol] true Fixture.carol Fixture.alice)) []
              [Fixture.carol] ltac:(reflexivity) ltac:(reflexivity)
              ltac:(vm_compute; reflexivity))
    as (Htrace & _ & Houtcome).
  rewrite (surjective_pairing (run_settling _ _ _)), Htrace, Houtcome. reflexivity.
Defined.

(** C6, as the claim states it, fails when the call of [$requestNewSession]
    is rejected: the provider is registered, [createIfNone] is not set and
    no session matches, yet [getSession] is rejected with the error of the
    call. *)
Lemma getSession_no_match_rejected_when_request_fails :
  authenticationProviders Fixture.two_registered !! "github" = Some Fixture.github /\
  JS.truthy (createIfNone Fixture.no_options) = false /\
  candidates ["repo"; "gist"] [Fixture.carol] = [] /\
  run_settling
    (Fixture.failing (Fixture.scripted [Fixture.carol] true Fixture.carol Fixture.alice)
       is_requestNewSession Fixture.connection_closed) []
    (snd (getSession Fixture.two_registered Fixture.plugin "github" ["repo"; "gist"]
            Fixture.no_options)) =
  ([provider_getSessions Fixture.github;
    proxy_requestNewSession "github" ["gist"; "repo"] "acme.sync" "Acme Sync"],
   Rejected Fixture.connection_closed) /\
  snd (run_settling
         (Fixture.failing (Fixture.scripted [Fixture.carol] true Fixture.carol Fixture.alice)
            is_requestNewSession Fixture.connection_closed) []
         (snd (getSession Fixture.two_registered Fixture.plugin "github" ["repo"; "gist"]
                 Fixture.no_options))) <> Resolved None.
Proof. repeat split; try (vm_compute; reflexivity). vm_compute. discriminate. Qed.

Lemma getSession_createIfNone_outcome_example :
  run_settling
    (replying (Fixture.scripted [Fixture.carol] false Fixture.carol Fixture.alice)) []
    (snd (getSession Fixture.two_registered Fixture.plugin "github" ["repo"; "gist"]
            Fixture.create_if_none)) =
  ([provider_getSessions Fixture.github; proxy_loginPrompt "GitHub" "Acme Sync"],
   Rejected ConsentDeniedError) /\
  run_settling
    (replying (Fixture.scripted [Fixture.carol] true Fixture.carol Fixture.alice)) []
    (snd (getSession Fixture.two_registered Fixture.plugin "github" ["repo"; "gist"]
            Fixture.create_if_none)) =
  ([provider_getSessions Fixture.github; proxy_loginPrompt "GitHub" "Acme Sync";
    provider_login Fixture.github ["gist"; "repo"];
    proxy_setTrustedExtensionAndAccountPreference "github" "alice" "acme.sync" "Acme Sync" "s1"],
   Resolved (Some Fixture.alice)).
Proof.
  split.
  - refine (proj1 (proj1 (getSession_createIfNone_outcome Fixture.two_registered Fixture.plugin
              "github" ["repo"; "gist"] Fixture.create_if_none Fixture.github _
              (replying (Fixture.scripted [Fixture.carol] false Fixture.carol Fixture.alice)) []
              [Fixture.carol] _ _ _) _));
      vm_compute; reflexivity.
  - destruct (proj1 (proj2 (getSession_createIfNone_outcome Fixture.two_registered Fixture.plugin
                "github" ["repo"; "gist"] Fixture.create_if_none Fixture.github
                ltac:(vm_compute; reflexivity)
                (replying (Fixture.scripted [Fixture.carol] true Fixture.carol Fixture.alice)) []
                [Fixture.carol] ltac:(reflexivity) ltac:(reflexivity)
                ltac:(vm_compute; reflexivity))
              ltac:(reflexivity)) Fixture.alice ltac:(reflexivity))
      as (Htrace & Houtcome).
    rewrite (surjective_pairing (run_settling _ _ _)), Htrace, Houtcome. reflexivity.
Defined.

(** C7, as the claim states it, fails when the call that persists the
    preference is rejected: consent is granted and [provider.login] is
    fulfilled with a new session, yet [getSession] is rejected and the
    session is not returned. *)
Lemma getSession_granted_rejected_when_persisting_fails :
  authenticationProviders Fixture.two_registered !! "github" = Some Fixture.github /\
  JS.truthy (createIfNone Fixture.create_if_none) = true /\
  candidates ["repo"; "gist"] [Fixture.carol] = [] /\
  run_settling
    (Fixture.failing (Fixture.scripted [Fixture.carol] true Fixture.carol Fixture.alice)
       is_setTrustedExtensionAndAccountPreference Fixture.connection_closed) []
    (snd (getSession Fixture.two_registered Fixture.plugin "github" ["repo"; "gist"]
            Fixture.create_if_none)) =
  ([provider_getSessions Fixture.github; proxy_loginPrompt "GitHub" "Acme Sync";
    provider_login Fixture.github ["gist"; "repo"];
    proxy_setTrustedExtensionAndAccountPreference "github" "alice" "acme.sync" "Acme Sync" "s1"],
   Rejected Fixture.connection_closed) /\
  forall session : AuthenticationSession,
    snd (run_settling
           (Fixture.failing (Fixture.scripted [Fixture.carol] true Fixture.carol Fixture.alice)
              is_setTrustedExtensionAndAccountPreference Fixture.connection_closed) []
           (snd (getSession Fixture.two_registered Fixture.plugin "github" ["repo"; "gist"]
                   Fixture.create_if_none))) <> Resolved (Some session).
Proof.
  repeat split; try (vm_compute; reflexivity). intros session. vm_compute. discriminate.
Qed.

Lemma getSession_multi_account_selection_example :
  candidates ["repo"; "gist"] [Fixture.alice; Fixture.carol; Fixture.bob]
    = [Fixture.alice; Fixture.bob] /\
  run (Fixture.scripted [Fixture.alice; Fixture.carol; Fixture.bob] true Fixture.bob Fixture.carol) []
    (snd (getSession Fixture.two_registered Fixture.plugin "microsoft" ["repo"; "gist"]
            Fixture.no_options)) =
  ([provider_getSessions Fixture.microsoft;
    proxy_selectSession "microsoft" "Microsoft" "acme.sync" "Acme Sync"
      [Fixture.alice; Fixture.bob] ["gist"; "repo"] false],
   Resolved (Some Fixture.bob)).
Proof.
  split; [vm_compute; reflexivity|].
  destruct (getSession_multi_account_selection Fixture.two_registered Fixture.plugin
              "microsoft" ["repo"; "gist"] Fixture.no_options Fixture.microsoft
              ltac:(vm_compute; reflexivity)
              (Fixture.scripted [Fixture.alice; Fixture.carol; Fixture.bob] true
                 Fixture.bob Fixture.carol) [] Fixture.bob
              ltac:(reflexivity) ltac:(vm_compute; discriminate) ltac:(reflexivity))
    as (result & Hrun & Hresult & _).
  rewrite Hrun, Hresult. vm_compute. reflexivity.
Defined.

Lemma logout_delegates_or_forwards_example :
  run (Fixture.scripted [] true Fixture.alice Fixture.alice) []
    (logout Fixture.one_registered "github" "s1") =
    ([provider_logout Fixture.github "s1"], Resolved tt) /\
  run (Fixture.scripted [] true Fixture.alice Fixture.alice) []
    (logout Fixture.one_registered "microsoft" "s2") =
    ([proxy_logout "microsoft" "s2"], Resolved tt).
Proof.
  split.
  - refine (proj1 (proj1 (logout_delegates_or_forwards Fixture.one_registered "github" "s1"
              (Fixture.scripted [] true Fixture.alice Fixture.alice) []) Fixture.github _)).
    vm_compute; reflexivity.
  - refine (proj2 (logout_delegates_or_forwards Fixture.one_registered "microsoft" "s2"
              (Fixture.scripted [] true Fixture.alice Fixture.alice) []) _).
    vm_compute; reflexivity.
Defined.

Lemma getSession_sorts_caller_scopes_example :
  fst (getSession Fixture.two_registered Fixture.plugin "microsoft" ["repo"; "gist"]
         Fixture.no_options) = ["gist"; "repo"] /\
  fst (run (Fixture.scripted [Fixture.alice; Fixture.carol; Fixture.bob] true
              Fixture.bob Fixture.carol) []
         (snd (getSession Fixture.two_registered Fixture.plugin "microsoft" ["repo"; "gist"]
                 Fixture.no_options))) =
  [provider_getSessions Fixture.microsoft;
   proxy_selectSession "microsoft" "Microsoft" "acme.sync" "Acme Sync"
     [Fixture.alice; Fixture.bob] ["gist"; "repo"] false].
Proof.
  destruct (getSession_sorts_caller_scopes Fixture.two_registered Fixture.plugin
              "microsoft" ["repo"; "gist"] Fixture.no_options Fixture.microsoft
              ltac:(vm_compute; reflexivity))
    as (Hafter & _ & _ & Hforwarded).
  split.
  - rewrite Hafter. vm_compute. reflexivity.
  - rewrite (Hforwarded (Fixture.scripted [Fixture.alice; Fixture.carol; Fixture.bob] true
                           Fixture.bob Fixture.carol) []
               ltac:(reflexivity) ltac:(vm_compute; discriminate)).
    vm_compute. reflexivity.
Defined.

(** * Further properties of the code *)

(** ** [getSession]: the remaining branches *)

(** X1.  [getSession] for a provider id that is not in the map rejects with
    "An authentication provider with id '...' was not found.", makes no
    call at all, and leaves the caller's scopes array as it was: the
    sorting is not reached. *)
Theorem getSession_unknown_provider (this : AuthenticationExtImpl)
    (requestingExtension : InternalPlugin) (providerId : string) (scopes : list string)
    (options : AuthenticationGetSessionOptions) (h : Handler) (t : list Call) :
  authenticationProviders this !! providerId = None ->
  fst (getSession this requestingExtension providerId scopes options) = scopes /\
  run h t (snd (getSession this requestingExtension providerId scopes options)) =
    (t, Rejected (ProviderNotFoundError providerId)).
Proof. intros Hnone. unfold getSession. rewrite Hnone. split; reflexivity. Qed.

Section BrokerMore.

Variable this : AuthenticationExtImpl.
Variable requestingExtension : InternalPlugin.
Variable providerId : string.
Variable scopes : list string.
Variable options : AuthenticationGetSessionOptions.
Variable provider : AuthenticationProvider.
Hypothesis registered : authenticationProviders this !! providerId = Some provider.

(** X2.  For a provider without support for multiple accounts, the first
    matching session, in the order of [provider.getSessions()], is the
    only one considered: the main side is asked with [$getSessionsPrompt]
    for that session's account label; the session is returned when the
    answer is yes, the promise is rejected with "User did not consent to
    login." when it is no.  [$selectSession] is not called, whatever
    [createIfNone] is. *)
Theorem getSession_single_account_consent (h : Handler) (t : list Call)
    (session : AuthenticationSession) (others : list AuthenticationSession) :
  supportsMultipleAccounts provider = false ->
  candidates scopes (h t (provider_getSessions provider)) = session :: others ->
  run h t (snd (getSession this requestingExtension providerId scopes options)) =
    (t ++ [provider_getSessions provider;
           proxy_getSessionsPrompt providerId (account_label (account session))
             (provider_label provider) (extensionId_of requestingExtension)
             (extensionName_of requestingExtension)],
     if h (t ++ [provider_getSessions provider])
          (proxy_getSessionsPrompt providerId (account_label (account session))
             (provider_label provider) (extensionId_of requestingExtension)
             (extensionName_of requestingExtension)) : bool
     then Resolved (Some session) else Rejected ConsentDeniedError).
Proof.
  intros Hsingle Hc.
  rewrite (getSession_awaits_getSessions this requestingExtension providerId scopes options
             provider registered). cbn [run].
  rewrite Hc, Hsingle. cbn [negb run]. rewrite <- app_assoc. cbn [app].
  match goal with |- context [if ?b then Ret _ else _] => destruct b end; reflexivity.
Qed.

(** Every way [getSession] can run for a registered provider. *)
Lemma getSession_run_cases (h : Handler) (t : list Call) :
  run h t (snd (getSession this requestingExtension providerId scopes options)) =
  match candidates scopes (h t (provider_getSessions provider)) with
  | session :: _ =>
    if supportsMultipleAccounts provider then
      (t ++ [provider_getSessions provider;
             proxy_selectSession providerId (provider_label provider)
               (extensionId_of requestingExtension) (extensionName_of requestingExtension)
               (candidates scopes (h t (provider_getSessions provider))) (JS.sort scopes)
               (JS.truthy (clearSessionPreference options))],
       Resolved
         (JS.find
            (fun s => String.eqb (session_id s)
               (session_id
                  (h (t ++ [provider_getSessions provider])
                     (proxy_selectSession providerId (provider_label provider)
                        (extensionId_of requestingExtension)
                        (extensionName_of requestingExtension)
                        (candidates scopes (h t (provider_getSessions provider)))
                        (JS.sort scopes) (JS.truthy (clearSessionPreference options))))))
            (candidates scopes (h t (provider_getSessions provider)))))
    else
      (t ++ [provider_getSessions provider;
             proxy_getSessionsPrompt providerId (account_label (account session))
               (provider_label provider) (extensionId_of requestingExtension)
               (extensionName_of requestingExtension)],
       if h (t ++ [provider_getSessions provider])
            (proxy_getSessionsPrompt providerId (account_label (account session))
               (provider_label provider) (extensionId_of requestingExtension)
               (extensionName_of requestingExtension)) : bool
       then Resolved (Some session) else Rejected ConsentDeniedError)
  | [] =>
    if JS.truthy (createIfNone options) then
      if h (t ++ [provider_getSessions provider])
           (proxy_loginPrompt (provider_label provider)
              (extensionName_of requestingExtension)) : bool
      then
        (t ++ [provider_getSessions provider;
               proxy_loginPrompt (provider_label provider) (extensionName_of requestingExtension);
               provider_login provider (JS.sort scopes);
               proxy_setTrustedExtensionAndAccountPreference providerId
                 (account_label (account
                    (h (t ++ [provider_getSessions provider;
                              proxy_loginPrompt (provider_label provider)
                                (extensionName_of requestingExtension)])
                       (provider_login provider (JS.sort scopes)))))
                 (extensionId_of requestingExtension) (extensionName_of requestingExtension)
                 (session_id
                    (h (t ++ [provider_getSessions provider;
                              proxy_loginPrompt (provider_label provider)
                                (extensionName_of requestingExtension)])
                       (provider_login provider (JS.sort scopes))))],
         Resolved (Some (h (t ++ [provider_getSessions provider;
                                  proxy_loginPrompt (provider_label provider)
                                    (extensionName_of requestingExtension)])
                           (provider_login provider (JS.sort scopes)))))
      else
        (t ++ [provider_getSessions provider;
               proxy_loginPrompt (provider_label provider) (extensionName_of requestingExtension)],
         Rejected ConsentDeniedError)
    else
      (t ++ [provider_getSessions provider;
             proxy_requestNewSession providerId (JS.sort scopes)
               (extensionId_of requestingExtension) (extensionName_of requestingExtension)],
       Resolved None)
  end.
Proof.
  rewrite (getSession_awaits_getSessions this requestingExtension providerId scopes options
             provider registered). cbn [run].
  destruct (candidates scopes (h t (provider_getSessions provider))) as [|session others].
  - destruct (JS.truthy (createIfNone options)); cbn [run].
    + match goal with |- context [if negb ?b then _ else _] => destruct b end;
        cbn [negb run]; rewrite <- !app_assoc; reflexivity.
    + now rewrite <- app_assoc.
  - destruct (supportsMultipleAccounts provider); cbn [negb run]; rewrite <- app_assoc; cbn [app].
    + reflexivity.
    + match goal with |- context [if ?b then Ret _ else _] => destruct b end; reflexivity.
Qed.

(** Splits a goal about a run of [getSession] into its five ways to end. *)
Ltac getSession_cases h t :=
  rewrite !(getSession_run_cases h t);
  destruct (candidates scopes (h t (provider_getSessions provider))) as [|?session ?others] eqn:?Hc;
  [ destruct (JS.truthy (createIfNone options)) eqn:?Hcreate;
    [ destruct (h (t ++ [provider_getSessions provider])
                  (proxy_loginPrompt (provider_label provider)
                     (extensionName_of requestingExtension))) eqn:?Hlogin | ]
  | destruct (supportsMultipleAccounts provider) eqn:?Hmulti;
    [ | destruct (h (t ++ [provider_getSessions provider])
                    (proxy_getSessionsPrompt providerId (account_label (account session))
                       (provider_label provider) (extensionId_of requestingExtension)
                       (extensionName_of requestingExtension))) eqn:?Hprompt ] ];
  cbn [fst snd]; rewrite ?drop_app_length.

(** X3.  [provider.login] is called only when [createIfNone] is set, no
    session of the provider matches the request, and the main side
    answered [$loginPrompt] with yes; in every other run no login is
    started. *)
Theorem getSession_login_only_on_request (h : Handler) (t : list Call) :
  List.filter is_provider_login
    (drop (length t)
       (fst (run h t (snd (getSession this requestingExtension providerId scopes options)))))
    <> [] ->
  JS.truthy (createIfNone options) = true /\
  candidates scopes (h t (provider_getSessions provider)) = [] /\
  h (t ++ [provider_getSessions provider])
    (proxy_loginPrompt (provider_label provider) (extensionName_of requestingExtension)) = true.
Proof.
  getSession_cases h t; cbn; intros Hlogged; try (now exfalso; apply Hlogged).
  repeat split.
Qed.

(** X4.  A session that [getSession] resolves to is either one of the
    sessions the provider reported, with the canonical scope key of the
    request, or, when none matched and [createIfNone] is set, the session
    that [provider.login] returned.  In particular the session object sent
    back by [$selectSession] is never returned itself, only the reported
    session with its id. *)
Theorem getSession_returns_reported_or_new (h : Handler) (t : list Call)
    (s : AuthenticationSession) :
  snd (run h t (snd (getSession this requestingExtension providerId scopes options))) =
    Resolved (Some s) ->
  (In s (h t (provider_getSessions provider)) /\
   scope_key (session_scopes s) = scope_key scopes) \/
  (candidates scopes (h t (provider_getSessions provider)) = [] /\
   JS.truthy (createIfNone options) = true /\
   s = h (t ++ [provider_getSessions provider;
                proxy_loginPrompt (provider_label provider)
                  (extensionName_of requestingExtension)])
         (provider_login provider (JS.sort scopes))).
Proof.
  assert (Hcand : forall x, In x (candidates scopes (h t (provider_getSessions provider))) ->
            In x (h t (provider_getSessions provider)) /\
            scope_key (session_scopes x) = scope_key scopes).
  { intros x Hx. unfold candidates in Hx. apply filter_In in Hx as [Hin Hm].
    split; [exact Hin|]. now apply String.eqb_eq in Hm. }
  revert Hcand. getSession_cases h t; intros Hcand Hres; try discriminate Hres.
  - right. injection Hres as <-. auto.
  - left. unfold JS.find in Hres.
    remember (List.find _ _) as found eqn:Hfind in Hres.
    injection Hres as ->. symmetry in Hfind.
    apply find_some in Hfind as [Hin _]. now apply Hcand.
  - left. injection Hres as <-. apply Hcand. now left.
Qed.

(** X5.  No session is handed to the extension without the main side
    having been asked in the same call: a run that resolves to a session
    contains a [$getSessionsPrompt], a [$selectSession] or a
    [$loginPrompt]. *)
Theorem getSession_session_requires_main_side (h : Handler) (t : list Call)
    (s : AuthenticationSession) :
  snd (run h t (snd (getSession this requestingExtension providerId scopes options))) =
    Resolved (Some s) ->
  existsb is_consent_call
    (drop (length t)
       (fst (run h t (snd (getSession this requestingExtension providerId scopes options)))))
    = true.
Proof.
  getSession_cases h t; intros Hres; try discriminate Hres; reflexivity.
Qed.

(** X6.  When the caller's scopes array is already in sorted order,
    [getSession] leaves it as it is. *)
Theorem getSession_sorted_scopes_unchanged :
  Sorted String.le scopes ->
  fst (getSession this requestingExtension providerId scopes options) = scopes.
Proof.
  intros Hsorted.
  rewrite (getSession_scopes_after this requestingExtension providerId scopes options
             provider registered).
  apply (Sorted_unique String.le); [apply sort_Sorted | exact Hsorted | apply sort_Permutation].
Qed.

End BrokerMore.

(** ** Registration and disposal *)

Lemma indexOf_absent (x : string) (l : list string) :
  JS.indexOf x l = -1 <-> ~ In x l.
Proof.
  unfold JS.indexOf. rewrite findIndex_absent, forallb_forall. split.
  - intros Hall Hin. apply Hall in Hin. unfold JS.strict_eq, JS.string_strict_eq in Hin.
    now rewrite String.eqb_refl in Hin.
  - intros Hnot y Hy. apply negb_true_iff, String.eqb_neq. now intros ->.
Qed.

Lemma find_info_absent (id : string) (l : list AuthenticationProviderInformation) :
  JS.find (fun p => String.eqb (info_id p) id) l = None <->
  (forall q, In q l -> info_id q <> id).
Proof.
  unfold JS.find. split.
  - intros Hnone q Hq. apply (find_none _ _ Hnone) in Hq. now apply String.eqb_neq in Hq.
  - intros Habs. destruct (List.find _ l) as [q|] eqn:Hf; [|reflexivity].
    apply find_some in Hf as [Hin Hid]. apply String.eqb_eq in Hid. now apply Habs in Hin.
Qed.

Lemma before_first_split {A} (f : A -> bool) (kept lost : list A) (x : A) :
  forallb (fun y => negb (f y)) kept = true -> f x = true ->
  before_first f (kept ++ x :: lost) = kept.
Proof.
  intros Hkept Hx. induction kept as [|y kept IH]; cbn.
  - now rewrite Hx.
  - cbn in Hkept. apply andb_true_iff in Hkept as [Hy Hkept].
    apply negb_true_iff in Hy. rewrite Hy. now rewrite IH.
Qed.

Lemma before_first_In {A} (f : A -> bool) (l : list A) (x : A) :
  In x (before_first f l) -> In x l /\ f x = false.
Proof.
  induction l as [|y l IH]; cbn; [tauto|].
  destruct (f y) eqn:Hy; cbn; [tauto|].
  intros [<-|Hin]; [auto|]. apply IH in Hin. tauto.
Qed.

Lemma before_first_NoDup {A} (f : A -> bool) (l : list A) :
  NoDup l -> NoDup (before_first f l).
Proof.
  induction 1 as [|y l Hy Hl IH]; cbn; [constructor|].
  destruct (f y); constructor; [|exact IH].
  rewrite list_elem_of_In. intros Hin. apply before_first_In in Hin as [Hin _].
  now apply list_elem_of_In in Hin.
Qed.

(** X7.  Registering a provider whose id is not in the map succeeds: the
    provider is found under its id afterwards and no other key of the map
    changes; the id is in the id list and an entry with the id is in the
    information list, both lists keeping their former contents in front;
    the provider's session events are subscribed to and the main side is
    told of the registration, in this order. *)
Theorem register_fresh (this : AuthenticationExtImpl) (provider : AuthenticationProvider) :
  authenticationProviders this !! provider_id provider = None ->
  snd (registerAuthenticationProvider this provider) = inr {| disposable := Some provider |} /\
  authenticationProviders (fst (registerAuthenticationProvider this provider))
    !! provider_id provider = Some provider /\
  (forall other, other <> provider_id provider ->
     authenticationProviders (fst (registerAuthenticationProvider this provider)) !! other =
     authenticationProviders this !! other) /\
  In (provider_id provider) (_providerIds (fst (registerAuthenticationProvider this provider))) /\
  (exists rest, _providerIds (fst (registerAuthenticationProvider this provider)) =
                _providerIds this ++ rest) /\
  (exists entry, In entry (_providers (fst (registerAuthenticationProvider this provider))) /\
                 info_id entry = provider_id provider) /\
  (exists rest, _providers (fst (registerAuthenticationProvider this provider)) =
                _providers this ++ rest) /\
  outbox (fst (registerAuthenticationProvider this provider)) =
    outbox this ++
    [provider_onDidChangeSessions provider;
     proxy_registerAuthenticationProvider (provider_id provider) (provider_label provider)
       (supportsMultipleAccounts provider)].
Proof.
  intros Hfree. unfold registerAuthenticationProvider. rewrite Hfree.
  cbn [fst snd authenticationProviders _providerIds _providers outbox].
  split; [reflexivity|]. split; [apply lookup_insert_eq|].
  split; [intros other Hother; now apply lookup_insert_ne|].
  assert (Hids : In (provider_id provider)
            (if JS.indexOf (provider_id provider) (_providerIds this) =? -1
             then JS.push (_providerIds this) (provider_id provider) else _providerIds this) /\
          exists rest,
            (if JS.indexOf (provider_id provider) (_providerIds this) =? -1
             then JS.push (_providerIds this) (provider_id provider) else _providerIds this) =
            _providerIds this ++ rest).
  { destruct (Z.eqb_spec (JS.indexOf (provider_id provider) (_providerIds this)) (-1))
      as [Habs|Hpres].
    - split; [apply in_or_app; right; now left | now exists [provider_id provider]].
    - split; [|exists []; now rewrite app_nil_r].
      destruct (in_dec String.eq_dec (provider_id provider) (_providerIds this)) as [Hin|Hnot];
        [exact Hin|]. now apply indexOf_absent in Hnot. }
  destruct Hids as [Hin Hprefix]. split; [exact Hin|]. split; [exact Hprefix|].
  destruct (JS.find _ (_providers this)) as [known|] eqn:Hknown.
  - unfold JS.find in Hknown. apply find_some in Hknown as [Hk Hid].
    apply String.eqb_eq in Hid.
    split; [now exists known|]. split; [exists []; now rewrite app_nil_r | reflexivity].
  - split; [|split; [eexists; reflexivity | reflexivity]].
    eexists. split; [apply in_or_app; right; left; reflexivity | reflexivity].
Qed.

(** X8.  When the information list already has an entry with the
    provider's id (it came in a broadcast of the main side), registering
    the provider neither adds an entry nor touches the old one: its label
    stays, whatever the label of the provider is. *)
Theorem register_keeps_known_information (this : AuthenticationExtImpl)
    (provider : AuthenticationProvider) (known : AuthenticationProviderInformation) :
  In known (_providers this) -> info_id known = provider_id provider ->
  _providers (fst (registerAuthenticationProvider this provider)) = _providers this.
Proof.
  intros Hin Hid. unfold registerAuthenticationProvider.
  destruct (authenticationProviders this !! provider_id provider); [reflexivity|].
  cbn [fst _providers].
  destruct (JS.find _ (_providers this)) eqn:Hfind; [reflexivity|].
  apply find_info_absent with (q := known) in Hfind; [contradiction | exact Hin].
Qed.

(** The id list has no repetition and names only keys of the map. *)
Lemma step_keeps_ids (this : AuthenticationExtImpl) (op : Operation) :
  (NoDup (_providerIds this) /\
   forall id, In id (_providerIds this) -> is_Some (authenticationProviders this !! id)) ->
  NoDup (_providerIds (step this op)) /\
  forall id, In id (_providerIds (step this op)) ->
             is_Some (authenticationProviders (step this op) !! id).
Proof.
  intros [Hnodup Hkeys]. destruct op as [provider|provider|added removed|id label event|provider e];
    cbn [step]; try (split; [exact Hnodup | exact Hkeys]).
  - unfold registerAuthenticationProvider.
    destruct (authenticationProviders this !! provider_id provider) eqn:Hget;
      cbn [fst _providerIds authenticationProviders]; [now split|].
    destruct (Z.eqb_spec (JS.indexOf (provider_id provider) (_providerIds this)) (-1))
      as [Habs|Hpres].
    + apply indexOf_absent in Habs. unfold JS.push. split.
      * apply NoDup_app. split; [exact Hnodup|]. split; [|apply NoDup_singleton].
        intros x Hx Hx'. apply list_elem_of_In in Hx. apply list_elem_of_singleton in Hx'.
        now subst x.
      * intros id Hid. apply in_app_or in Hid as [Hid|[<-|[]]].
        -- destruct (decide (provider_id provider = id)) as [<-|Hne].
           ++ rewrite lookup_insert_eq. eauto.
           ++ rewrite lookup_insert_ne by exact Hne. now apply Hkeys.
        -- rewrite lookup_insert_eq. eauto.
    + split; [exact Hnodup|]. intros id Hid.
      destruct (decide (provider_id provider = id)) as [<-|Hne].
      * rewrite lookup_insert_eq. eauto.
      * rewrite lookup_insert_ne by exact Hne. now apply Hkeys.
  - rewrite unregister_providerIds. split; [now apply before_first_NoDup|].
    intros id Hid. apply before_first_In in Hid as [Hid Hne].
    apply String.eqb_neq in Hne. rewrite unregister_lookup.
    case_decide as Heq; [now subst id|]. now apply Hkeys.
Qed.

(** X9.  Whatever sequence of registrations, runs of disposal callbacks,
    broadcasts of the main side and provider events the object went
    through since it was built, the id list holds no id twice and every
    id in it is a key of the provider map. *)
Theorem registry_ids_invariant (ops : list Operation) :
  NoDup (_providerIds (after ops)) /\
  forall id, In id (_providerIds (after ops)) ->
             is_Some (authenticationProviders (after ops) !! id).
Proof.
  unfold after. induction ops as [|op ops IH] using rev_ind.
  - cbn. split; [constructor | intros id []].
  - rewrite fold_left_app. cbn [fold_left]. now apply step_keeps_ids.
Qed.

(** X10.  A registration that is disposed of while it is still the last
    one is undone: when the provider's id is in none of the map, the id
    list and the information list, registering it and then disposing of the
    handle gives back the map and both lists as they were. *)
Theorem register_then_dispose_restores (this : AuthenticationExtImpl)
    (provider : AuthenticationProvider) (handle : Disposable) :
  authenticationProviders this !! provider_id provider = None ->
  ~ In (provider_id provider) (_providerIds this) ->
  (forall q, In q (_providers this) -> info_id q <> provider_id provider) ->
  snd (registerAuthenticationProvider this provider) = inr handle ->
  authenticationProviders
    (snd (dispose handle (fst (registerAuthenticationProvider this provider))))
    = authenticationProviders this /\
  _providerIds (snd (dispose handle (fst (registerAuthenticationProvider this provider))))
    = _providerIds this /\
  _providers (snd (dispose handle (fst (registerAuthenticationProvider this provider))))
    = _providers this.
Proof.
  intros Hfree Hids Hinfos Hhandle.
  unfold registerAuthenticationProvider in *. rewrite Hfree in *.
  cbn [snd fst] in *. injection Hhandle as <-. cbn [dispose disposable snd].
  rewrite unregister_providerIds, unregister_providers.
  unfold unregister. cbn [authenticationProviders _providerIds _providers].
  apply indexOf_absent in Hids. rewrite Hids. cbn [Z.eqb Pos.eqb].
  apply find_info_absent in Hinfos as Hfind. rewrite Hfind.
  split; [now apply delete_insert_id|]. unfold JS.push. split.
  - apply before_first_split; [|apply String.eqb_refl].
    apply indexOf_absent in Hids. apply forallb_forall. intros y Hy.
    apply negb_true_iff, String.eqb_neq. now intros ->.
  - apply before_first_split; [|apply String.eqb_refl].
    apply forallb_forall. intros q Hq. apply negb_true_iff, String.eqb_neq. now apply Hinfos.
Qed.

(** X11.  Once the callback of a registration of [provider] has run, the id
    is free again: [getSession] for it rejects with the "was not found"
    error and leaves the scopes array alone, [logout] is forwarded to the
    main side, [$login], [$logout] and [$getSessions] throw "Unable to find
    authentication provider with handle: ...", and a provider with that id
    can be registered anew. *)
Theorem unregistered_provider_is_unknown (this : AuthenticationExtImpl)
    (provider again : AuthenticationProvider) (requestingExtension : InternalPlugin)
    (scopes : list string) (options : AuthenticationGetSessionOptions) (sessionId : string)
    (h : Handler) (t : list Call) :
  provider_id again = provider_id provider ->
  getSession (unregister provider this) requestingExtension (provider_id provider) scopes options
    = (scopes, Throw (ProviderNotFoundError (provider_id provider))) /\
  run h t (logout (unregister provider this) (provider_id provider) sessionId)
    = (t ++ [proxy_logout (provider_id provider) sessionId], Resolved tt) /\
  remote_login (unregister provider this) (provider_id provider) scopes
    = Throw (UnknownHandleError (provider_id provider)) /\
  remote_logout (unregister provider this) (provider_id provider) sessionId
    = Throw (UnknownHandleError (provider_id provider)) /\
  remote_getSessions (unregister provider this) (provider_id provider)
    = Throw (UnknownHandleError (provider_id provider)) /\
  snd (registerAuthenticationProvider (unregister provider this) again)
    = inr {| disposable := Some again |} /\
  authenticationProviders (fst (registerAuthenticationProvider (unregister provider this) again))
    !! provider_id provider = Some again.
Proof.
  intros Hid.
  assert (Hgone : authenticationProviders (unregister provider this) !! provider_id provider = None).
  { rewrite unregister_lookup. now rewrite decide_True. }
  unfold getSession, logout, remote_login, remote_logout, remote_getSessions,
    registerAuthenticationProvider.
  rewrite Hid, Hgone. cbn [run snd fst authenticationProviders].
  repeat split. apply lookup_insert_eq.
Qed.

(** X12.  After a successful registration the provider serves the calls of
    the main side: [$login], [$logout] and [$getSessions] for its id each
    make the one call of the provider's method, with the arguments given,
    and resolve to its reply. *)
Theorem registered_provider_serves_remote_calls (this : AuthenticationExtImpl)
    (provider : AuthenticationProvider) (scopes : list string) (sessionId : string)
    (h : Handler) (t : list Call) :
  authenticationProviders this !! provider_id provider = None ->
  run h t (remote_login (fst (registerAuthenticationProvider this provider))
             (provider_id provider) scopes)
    = (t ++ [provider_login provider scopes], Resolved (h t (provider_login provider scopes))) /\
  run h t (remote_logout (fst (registerAuthenticationProvider this provider))
             (provider_id provider) sessionId)
    = (t ++ [provider_logout provider sessionId], Resolved tt) /\
  run h t (remote_getSessions (fst (registerAuthenticationProvider this provider))
             (provider_id provider))
    = (t ++ [provider_getSessions provider], Resolved (h t (provider_getSessions provider))).
Proof.
  intros Hfree.
  assert (Hget : authenticationProviders (fst (registerAuthenticationProvider this provider))
                   !! provider_id provider = Some provider).
  { unfold registerAuthenticationProvider. rewrite Hfree. apply lookup_insert_eq. }
  unfold remote_login, remote_logout, remote_getSessions. rewrite Hget.
  repeat split.
Qed.

(** X13.  The callback of a registration handle cuts both lists at the
    provider's position: with the id list [kept ++ id :: lost] and the
    information list [kept' ++ entry :: lost'], where [id] and [entry] are
    the first with the provider's id, the lists become [kept] and [kept'];
    the ids and entries registered later are dropped with it.  The map
    loses the provider's key only, and the main side is sent one
    [$unregisterAuthenticationProvider] after the subscription is
    disposed of. *)
Theorem unregister_cuts_lists (this : AuthenticationExtImpl) (provider : AuthenticationProvider)
    (kept lost : list string) (kept' lost' : list AuthenticationProviderInformation)
    (entry : AuthenticationProviderInformation) :
  _providerIds this = kept ++ provider_id provider :: lost ->
  ~ In (provider_id provider) kept ->
  _providers this = kept' ++ entry :: lost' ->
  info_id entry = provider_id provider ->
  (forall q, In q kept' -> info_id q <> provider_id provider) ->
  _providerIds (unregister provider this) = kept /\
  _providers (unregister provider this) = kept' /\
  authenticationProviders (unregister provider this)
    = delete (provider_id provider) (authenticationProviders this) /\
  outbox (unregister provider this)
    = outbox this ++ [listener_dispose provider;
                      proxy_unregisterAuthenticationProvider (provider_id provider)].
Proof.
  intros Hids Hkept Hinfos Hentry Hkept'.
  rewrite unregister_providerIds, unregister_providers, Hids, Hinfos.
  split; [|split; [|split; reflexivity]].
  - apply before_first_split; [|apply String.eqb_refl].
    apply forallb_forall. intros y Hy. apply negb_true_iff, String.eqb_neq. now intros ->.
  - apply before_first_split; [|now apply String.eqb_eq].
    apply forallb_forall. intros q Hq. apply negb_true_iff, String.eqb_neq. now apply Hkept'.
Qed.

(** ** Broadcasts of the provider directory *)

Lemma fold_remove_info_In (removed providers : list AuthenticationProviderInformation)
    (q : AuthenticationProviderInformation) :
  In q (fold_left remove_info removed providers) ->
  In q providers /\ forall r, In r removed -> info_id q <> info_id r.
Proof.
  revert providers. induction removed as [|r removed IH]; intros providers Hq; cbn in Hq.
  - split; [exact Hq | intros r []].
  - apply IH in Hq as [Hq Hrest]. rewrite remove_info_before_first in Hq.
    apply before_first_In in Hq as [Hq Hne]. apply String.eqb_neq in Hne.
    split; [exact Hq|]. intros r' [<-|Hr']; [exact Hne | now apply Hrest].
Qed.

Lemma fold_remove_info_prefix (removed providers : list AuthenticationProviderInformation) :
  exists rest, providers = fold_left remove_info removed providers ++ rest.
Proof.
  revert providers. induction removed as [|r removed IH]; intros providers; cbn.
  - exists []. now rewrite app_nil_r.
  - destruct (IH (remove_info providers r)) as [rest Hrest].
    rewrite remove_info_before_first in *.
    destruct (before_first_prefix (fun provider => String.eqb (info_id provider) (info_id r))
                providers) as [rest' Hrest'].
    exists (rest ++ rest'). rewrite app_assoc, <- Hrest. exact Hrest'.
Qed.

Lemma fold_add_info_In (added providers : list AuthenticationProviderInformation)
    (q : AuthenticationProviderInformation) :
  In q (fold_left add_info added providers) -> In q providers \/ In q added.
Proof.
  revert providers. induction added as [|x added IH]; intros providers Hq; cbn in Hq; [now left|].
  apply IH in Hq as [Hq|Hq]; [|right; now right].
  rewrite add_info_by_reference in Hq. destruct (forallb _ providers); [|now left].
  apply in_app_or in Hq as [Hq|[<-|[]]]; [now left | right; now left].
Qed.

(** X14.  After a broadcast, no entry of the information list has the id
    of a removed provider; every entry is a former entry or an added
    object; and the list is a front part of the former list followed by the
    added objects: the entries that stay keep their order. *)
Theorem providers_changed_removes_ids (this : AuthenticationExtImpl)
    (added removed : list AuthenticationProviderInformation) :
  (forall q r, In q (_providers (onDidChangeAuthenticationProviders this added removed)) ->
               In r removed -> info_id q <> info_id r) /\
  (forall q, In q (_providers (onDidChangeAuthenticationProviders this added removed)) ->
             In q (_providers this) \/ In q added) /\
  (exists rest, fold_left add_info added (_providers this) =
                _providers (onDidChangeAuthenticationProviders this added removed) ++ rest).
Proof.
  unfold onDidChangeAuthenticationProviders. cbn [_providers]. repeat split.
  - intros q r Hq Hr. apply fold_remove_info_In in Hq as [_ Hq]. now apply Hq.
  - intros q Hq. apply fold_remove_info_In in Hq as [Hq _]. now apply fold_add_info_In.
  - apply fold_remove_info_prefix.
Qed.

Lemma add_info_known (providers : list AuthenticationProviderInformation)
    (x : AuthenticationProviderInformation) :
  (exists y, In y providers /\ info_ref y = info_ref x) -> add_info providers x = providers.
Proof.
  intros (y & Hy & Href). rewrite add_info_by_reference.
  destruct (forallb _ providers) eqn:Hall; [|reflexivity].
  rewrite forallb_forall in Hall. apply Hall in Hy.
  apply negb_true_iff, bool_decide_eq_false in Hy. contradiction.
Qed.

Lemma add_info_holds (providers : list AuthenticationProviderInformation)
    (x : AuthenticationProviderInformation) :
  exists y, In y (add_info providers x) /\ info_ref y = info_ref x.
Proof.
  rewrite add_info_by_reference. destruct (forallb _ providers) eqn:Hall.
  - exists x. split; [apply in_or_app; right; now left | reflexivity].
  - induction providers as [|z providers IH]; [discriminate Hall|].
    cbn in Hall. destruct (bool_decide (info_ref z = info_ref x)) eqn:Hz.
    + apply bool_decide_eq_true in Hz. exists z. split; [now left | exact Hz].
    + cbn in Hall. destruct (IH Hall) as (y & Hy & Href). exists y. split; [now right | exact Href].
Qed.

Lemma fold_add_info_prefix (added providers : list AuthenticationProviderInformation) :
  exists rest, fold_left add_info added providers = providers ++ rest.
Proof.
  revert providers. induction added as [|x added IH]; intros providers; cbn.
  - exists []. now rewrite app_nil_r.
  - destruct (IH (add_info providers x)) as [rest Hrest]. rewrite Hrest.
    rewrite add_info_by_reference. destruct (forallb _ providers).
    + exists ([x] ++ rest). now rewrite app_assoc.
    + now exists rest.
Qed.

Lemma fold_add_info_holds (added providers : list AuthenticationProviderInformation)
    (x : AuthenticationProviderInformation) :
  In x added \/ (exists y, In y providers /\ info_ref y = info_ref x) ->
  exists y, In y (fold_left add_info added providers) /\ info_ref y = info_ref x.
Proof.
  revert providers. induction added as [|a added IH]; intros providers Hx; cbn.
  - now destruct Hx as [[]|Hx].
  - apply IH. destruct Hx as [[Ha|Hx]|(y & Hy & Href)].
    + right. subst a. apply add_info_holds.
    + now left.
    + right. exists y. split; [|exact Href].
      destruct (fold_add_info_prefix [a] providers) as [rest Hrest]. cbn in Hrest.
      rewrite Hrest. apply in_or_app. now left.
Qed.

Lemma fold_add_info_known (added providers : list AuthenticationProviderInformation) :
  (forall x, In x added -> exists y, In y providers /\ info_ref y = info_ref x) ->
  fold_left add_info added providers = providers.
Proof.
  induction added as [|a added IH]; intros Hknown; cbn; [reflexivity|].
  rewrite add_info_known by (apply Hknown; now left).
  apply IH. intros x Hx. apply Hknown. now right.
Qed.

(** X15.  A broadcast that only adds keeps the former entries in front and
    leaves every added object in the list; delivered a second time with
    the same objects it changes nothing: an object is appended only when
    that very object is not yet in the list. *)
Theorem providers_changed_adds_by_reference (this : AuthenticationExtImpl)
    (added : list AuthenticationProviderInformation) :
  (exists rest, _providers (onDidChangeAuthenticationProviders this added []) =
                _providers this ++ rest) /\
  (forall x, In x added ->
     exists y, In y (_providers (onDidChangeAuthenticationProviders this added [])) /\
               info_ref y = info_ref x) /\
  _providers (onDidChangeAuthenticationProviders
                (onDidChangeAuthenticationProviders this added []) added [])
    = _providers (onDidChangeAuthenticationProviders this added []).
Proof.
  unfold onDidChangeAuthenticationProviders. cbn [_providers fold_left].
  split; [apply fold_add_info_prefix|]. split.
  - intros x Hx. apply fold_add_info_holds. now left.
  - apply fold_add_info_known. intros x Hx. apply fold_add_info_holds. now left.
Qed.

(** ** The canonical scope key *)

(** X16.  The canonical key does not tell scopes apart from the delimiter:
    a session whose single scope is the requested scopes, sorted and joined
    by spaces, matches the request. *)
Theorem joined_scope_matches_request (s : AuthenticationSession) (scopes : list string)
    (all : list AuthenticationSession) :
  session_scopes s = [JS.join " " (JS.sort scopes)] -> In s all ->
  In s (candidates scopes all).
Proof.
  intros Hs Hin. unfold candidates. apply filter_In. split; [exact Hin|].
  unfold session_matches. rewrite Hs. cbn. apply String.eqb_refl.
Qed.

(** ** The cached id list *)

(** X17.  The id list only ever holds ids of providers registered through
    this object: an id announced by a broadcast of the main side enters the
    information list, never the id list. *)
Theorem providerIds_only_local (ops : list Operation) (id : string) :
  In id (_providerIds (after ops)) ->
  exists provider, In (op_register provider) ops /\ provider_id provider = id.
Proof.
  unfold after. revert id. induction ops as [|op ops IH] using rev_ind; intros id Hid.
  - destruct Hid.
  - rewrite fold_left_app in Hid. cbn [fold_left] in Hid.
    assert (Hold : In id (_providerIds (fold_left step ops new_AuthenticationExtImpl)) ->
              exists provider, In (op_register provider) (ops ++ [op]) /\ provider_id provider = id).
    { intros Hin. destruct (IH id Hin) as (provider & Hop & Hp).
      exists provider. split; [apply in_or_app; now left | exact Hp]. }
    destruct op as [provider|provider|added removed|pid label event|provider e];
      cbn [step] in Hid; try (now apply Hold).
    + unfold registerAuthenticationProvider in Hid.
      destruct (authenticationProviders _ !! provider_id provider);
        cbn [fst _providerIds] in Hid; [now apply Hold|].
      destruct (JS.indexOf _ _ =? -1); [|now apply Hold].
      apply in_app_or in Hid as [Hid|[<-|[]]]; [now apply Hold|].
      exists provider. split; [apply in_or_app; right; now left | reflexivity].
    + rewrite unregister_providerIds in Hid. apply before_first_In in Hid as [Hid _].
      now apply Hold.
Qed.

(** ** The further properties at concrete inputs *)

Lemma getSession_unknown_provider_example :
  authenticationProviders Fixture.one_registered !! "gitlab" = None /\
  fst (getSession Fixture.one_registered Fixture.plugin "gitlab" ["repo"; "gist"]
         Fixture.create_if_none) = ["repo"; "gist"] /\
  run (Fixture.scripted [Fixture.alice] true Fixture.alice Fixture.alice) []
    (snd (getSession Fixture.one_registered Fixture.plugin "gitlab" ["repo"; "gist"]
            Fixture.create_if_none)) =
  ([], Rejected (ProviderNotFoundError "gitlab")).
Proof.
  assert (H : authenticationProviders Fixture.one_registered !! "gitlab" = None)
    by (vm_compute; reflexivity).
  split; [exact H|].
  exact (getSession_unknown_provider Fixture.one_registered Fixture.plugin "gitlab"
           ["repo"; "gist"] Fixture.create_if_none
           (Fixture.scripted [Fixture.alice] true Fixture.alice Fixture.alice) [] H).
Defined.

Lemma getSession_single_account_consent_example :
  run (Fixture.scripted [Fixture.carol; Fixture.alice; Fixture.bob] true Fixture.bob Fixture.carol)
    [] (snd (getSession Fixture.two_registered Fixture.plugin "github" ["repo"; "gist"]
               Fixture.create_if_none)) =
  ([provider_getSessions Fixture.github;
    proxy_getSessionsPrompt "github" "alice" "GitHub" "acme.sync" "Acme Sync"],
   Resolved (Some Fixture.alice)).
Proof.
  refine (getSession_single_account_consent Fixture.two_registered Fixture.plugin "github"
            ["repo"; "gist"] Fixture.create_if_none Fixture.github _
            (Fixture.scripted [Fixture.carol; Fixture.alice; Fixture.bob] true
               Fixture.bob Fixture.carol) [] Fixture.alice [Fixture.bob] _ _);
    vm_compute; reflexivity.
Defined.

Lemma getSession_login_only_on_request_example :
  JS.truthy (createIfNone Fixture.create_if_none) = true /\
  candidates ["repo"; "gist"] [Fixture.carol] = [].
Proof.
  destruct (getSession_login_only_on_request Fixture.two_registered Fixture.plugin "github"
              ["repo"; "gist"] Fixture.create_if_none Fixture.github
              ltac:(vm_compute; reflexivity)
              (Fixture.scripted [Fixture.carol] true Fixture.carol Fixture.alice) []
              ltac:(vm_compute; discriminate))
    as (Hcreate & Hnone & _).
  split; [exact Hcreate | exact Hnone].
Defined.

Lemma getSession_returns_reported_or_new_example :
  snd (run (Fixture.scripted [Fixture.alice; Fixture.carol; Fixture.bob] true
              Fixture.bob Fixture.carol) []
         (snd (getSession Fixture.two_registered Fixture.plugin "microsoft" ["repo"; "gist"]
                 Fixture.no_options))) = Resolved (Some Fixture.bob) /\
  In Fixture.bob [Fixture.alice; Fixture.carol; Fixture.bob] /\
  scope_key (session_scopes Fixture.bob) = scope_key ["repo"; "gist"].
Proof.
  assert (H : snd (run (Fixture.scripted [Fixture.alice; Fixture.carol; Fixture.bob] true
                          Fixture.bob Fixture.carol) []
                     (snd (getSession Fixture.two_registered Fixture.plugin "microsoft"
                             ["repo"; "gist"] Fixture.no_options))) = Resolved (Some Fixture.bob))
    by (vm_compute; reflexivity).
  split; [exact H|].
  destruct (getSession_returns_reported_or_new Fixture.two_registered Fixture.plugin "microsoft"
              ["repo"; "gist"] Fixture.no_options Fixture.microsoft
              ltac:(vm_compute; reflexivity)
              (Fixture.scripted [Fixture.alice; Fixture.carol; Fixture.bob] true
                 Fixture.bob Fixture.carol) [] Fixture.bob H)
    as [Hreported | (Hnone & _)].
  - exact Hreported.
  - vm_compute in Hnone. discriminate Hnone.
Defined.

Lemma getSession_session_requires_main_side_example :
  existsb is_consent_call
    (fst (run (Fixture.scripted [Fixture.carol] true Fixture.carol Fixture.alice) []
            (snd (getSession Fixture.two_registered Fixture.plugin "github" ["repo"; "gist"]
                    Fixture.create_if_none)))) = true.
Proof.
  exact (getSession_session_requires_main_side Fixture.two_registered Fixture.plugin "github"
           ["repo"; "gist"] Fixture.create_if_none Fixture.github
           ltac:(vm_compute; reflexivity)
           (Fixture.scripted [Fixture.carol] true Fixture.carol Fixture.alice) [] Fixture.alice
           ltac:(vm_compute; reflexivity)).
Defined.

Lemma getSession_sorted_scopes_unchanged_example :
  Sorted String.le ["gist"; "repo"] /\
  fst (getSession Fixture.two_registered Fixture.plugin "github" ["gist"; "repo"]
         Fixture.no_options) = ["gist"; "repo"].
Proof.
  assert (H : Sorted String.le ["gist"; "repo"]) by (repeat constructor).
  split; [exact H|].
  exact (getSession_sorted_scopes_unchanged Fixture.two_registered Fixture.plugin "github"
           ["gist"; "repo"] Fixture.no_options Fixture.github
           ltac:(vm_compute; reflexivity) H).
Defined.

Lemma register_fresh_example :
  authenticationProviders new_AuthenticationExtImpl !! "github" = None /\
  authenticationProviders Fixture.one_registered !! "github" = Some Fixture.github /\
  In "github" (_providerIds Fixture.one_registered).
Proof.
  assert (H : authenticationProviders new_AuthenticationExtImpl
                !! provider_id Fixture.github = None) by reflexivity.
  split; [exact H|].
  destruct (register_fresh new_AuthenticationExtImpl Fixture.github H)
    as (_ & Hget & _ & Hin & _).
  split; [exact Hget | exact Hin].
Defined.

Lemma register_keeps_known_information_example :
  In (Fixture.remote_github 0) (_providers Fixture.github_announced) /\
  _providers (fst (registerAuthenticationProvider Fixture.github_announced Fixture.github_clone))
    = [Fixture.remote_github 0].
Proof.
  assert (H : In (Fixture.remote_github 0) (_providers Fixture.github_announced))
    by (left; reflexivity).
  split; [exact H|].
  exact (register_keeps_known_information Fixture.github_announced Fixture.github_clone
           (Fixture.remote_github 0) H eq_refl).
Defined.

Lemma register_then_dispose_restores_example :
  _providerIds Fixture.one_registered = ["github"] /\
  _providerIds (snd (dispose Fixture.github_handle Fixture.one_registered)) = [] /\
  _providers (snd (dispose Fixture.github_handle Fixture.one_registered)) = [].
Proof.
  split; [reflexivity|].
  destruct (register_then_dispose_restores new_AuthenticationExtImpl Fixture.github
              Fixture.github_handle ltac:(reflexivity) ltac:(intros [])
              ltac:(intros q []) ltac:(reflexivity))
    as (_ & Hids & Hinfos).
  split; [exact Hids | exact Hinfos].
Defined.

Lemma unregistered_provider_is_unknown_example :
  getSession (unregister Fixture.github Fixture.two_registered) Fixture.plugin "github"
    ["repo"; "gist"] Fixture.no_options
    = (["repo"; "gist"], Throw (ProviderNotFoundError "github")) /\
  snd (registerAuthenticationProvider (unregister Fixture.github Fixture.two_registered)
         Fixture.github_clone) = inr {| disposable := Some Fixture.github_clone |}.
Proof.
  destruct (unregistered_provider_is_unknown Fixture.two_registered Fixture.github
              Fixture.github_clone Fixture.plugin ["repo"; "gist"] Fixture.no_options "s1"
              (Fixture.scripted [] true Fixture.alice Fixture.alice) [] eq_refl)
    as (Hget & _ & _ & _ & _ & Hagain & _).
  split; [exact Hget | exact Hagain].
Defined.

Lemma registered_provider_serves_remote_calls_example :
  run (Fixture.scripted [Fixture.alice] true Fixture.alice Fixture.bob) []
    (remote_login Fixture.one_registered "github" ["repo"])
    = ([provider_login Fixture.github ["repo"]], Resolved Fixture.bob) /\
  run (Fixture.scripted [Fixture.alice] true Fixture.alice Fixture.bob) []
    (remote_getSessions Fixture.one_registered "github")
    = ([provider_getSessions Fixture.github], Resolved [Fixture.alice]).
Proof.
  destruct (registered_provider_serves_remote_calls new_AuthenticationExtImpl Fixture.github
              ["repo"] "s1" (Fixture.scripted [Fixture.alice] true Fixture.alice Fixture.bob) []
              ltac:(reflexivity))
    as (Hlogin & _ & Hsessions).
  split; [exact Hlogin | exact Hsessions].
Defined.

Lemma unregister_cuts_lists_example :
  _providerIds Fixture.two_registered = ["github"; "microsoft"] /\
  _providers Fixture.two_registered = [Fixture.own_github; Fixture.own_microsoft] /\
  _providerIds (unregister Fixture.github Fixture.two_registered) = [] /\
  _providers (unregister Fixture.github Fixture.two_registered) = [].
Proof.
  split; [reflexivity|]. split; [reflexivity|].
  destruct (unregister_cuts_lists Fixture.two_registered Fixture.github
              [] ["microsoft"] [] [Fixture.own_microsoft] Fixture.own_github
              ltac:(reflexivity) ltac:(intros []) ltac:(reflexivity) ltac:(reflexivity)
              ltac:(intros q []))
    as (Hids & Hinfos & _).
  split; [exact Hids | exact Hinfos].
Defined.

Lemma joined_scope_matches_request_example :
  session_scopes Fixture.joined = ["gist repo"] /\
  In Fixture.joined (candidates ["repo"; "gist"] [Fixture.carol; Fixture.joined]).
Proof.
  split; [reflexivity|].
  apply (joined_scope_matches_request Fixture.joined ["repo"; "gist"]
           [Fixture.carol; Fixture.joined]).
  - vm_compute. reflexivity.
  - right. left. reflexivity.
Defined.

Lemma providerIds_only_local_example :
  _providers (after [op_providers_changed [Fixture.remote_gitlab 0] [];
                     op_register Fixture.github]) = [Fixture.remote_gitlab 0; Fixture.own_github] /\
  _providerIds (after [op_providers_changed [Fixture.remote_gitlab 0] [];
                       op_register Fixture.github]) = ["github"] /\
  exists provider,
    In (op_register provider)
       [op_providers_changed [Fixture.remote_gitlab 0] []; op_register Fixture.github] /\
    provider_id provider = "github".
Proof.
  split; [reflexivity|]. split; [reflexivity|].
  apply (providerIds_only_local
           [op_providers_changed [Fixture.remote_gitlab 0] []; op_register Fixture.github]
           "github").
  left. reflexivity.
Defined.
